(** * Rebelay timing model and optimiser: a shallow embedding

    The development follows the three Python modules of the repository:

    - [ascent_time.py]: the closed-form timing model [ascent_time];
    - [optimum_rebelay.py]: the sweep over rebelay counts followed by an
      interpolation and a dense search, in the two variants
      [optimum_rebelay] and [optimum_rebelay_both_ways];
    - [rebelay_plots.py]: the two plotting functions, as far as the data
      they compute and draw.

    Python numbers are duck typed.  The timing model is therefore written
    once, over an interface [PyNum] of the arithmetic it uses, and read at
    two instances: exact rationals [Q] (the arithmetic in which the
    formulas of the model are stated) and IEEE-754 binary64 [float] (the
    arithmetic CPython runs it in).  The interface converts every integer
    to a number; the conversion CPython performs on floats can fail, and
    [ascent_time_binary64] is the model once more with that conversion.
    Exceptions are values of [result]. *)

From Stdlib Require Import ZArith QArith Qround Qabs Lqa Lia List String Bool.
From Stdlib Require Import Floats.
Import ListNotations.

(** ** Exceptions and results *)

Module Py.

(** The exceptions the modelled code can raise or let through.  [ValueError]
    carries its message: the message tells the check of [ascent_time] from
    the complaints of [min] and of the interpolation library.
    [OverflowError] is what the conversion of an integer beyond the range
    of floats raises. *)
Inductive exn : Type :=
| ValueError (msg : string)
| ZeroDivisionError
| IndexError (msg : string)
| OverflowError (msg : string).

Inductive result (A : Type) : Type :=
| Ok (a : A)
| Raise (e : exn).

Arguments Ok {A} a.
Arguments Raise {A} e.

Definition bind {A B : Type} (r : result A) (k : A -> result B) : result B :=
  match r with
  | Ok a => k a
  | Raise e => Raise e
  end.

Definition is_ok {A : Type} (r : result A) : bool :=
  match r with Ok _ => true | Raise _ => false end.

(** A Python object, as far as [isinstance(_, int)] can tell them apart.
    [bool] is a subclass of [int], so [True] and [False] are instances. *)
Inductive value : Type :=
| PyInt (z : Z)
| PyBool (b : bool)
| PyFloat (q : Q)
| PyStr (s : string)
| PyNone.

(** [isinstance(v, int)], returning the integer the object stands for. *)
Definition isinstance_int (v : value) : option Z :=
  match v with
  | PyInt z => Some z
  | PyBool b => Some (Z.b2z b)
  | PyFloat _ | PyStr _ | PyNone => None
  end.

End Py.
Export Py.

Declare Scope py_scope.
Delimit Scope py_scope with py.
Notation "'let*' x ':=' e 'in' k" := (bind e (fun x => k))
  (at level 10, x name, e at level 100, k at level 200) : py_scope.
Notation "'let*' ' p ':=' e 'in' k" := (bind e (fun p => k))
  (at level 10, p pattern, e at level 100, k at level 200) : py_scope.
Open Scope py_scope.
Open Scope Q_scope.

(** ** The arithmetic of the timing model *)

(** What [ascent_time] asks of its numeric arguments: [+], [*], [/] and the
    promotion of a Python [int].  [num_is_zero] is the test behind
    [ZeroDivisionError]. *)
Class PyNum (F : Type) : Type := {
  num_of_int : Z -> F;
  num_add : F -> F -> F;
  num_mul : F -> F -> F;
  num_div : F -> F -> F;
  num_is_zero : F -> bool
}.

(** Python's [a / b]. *)
Definition truediv {F : Type} `{PyNum F} (a b : F) : result F :=
  if num_is_zero b then Raise ZeroDivisionError else Ok (num_div a b).

(** Exact rational arithmetic. *)
#[export] Instance PyNum_Q : PyNum Q := {
  num_of_int := inject_Z;
  num_add := Qplus;
  num_mul := Qmult;
  num_div := Qdiv;
  num_is_zero := fun q => Qeq_bool q 0
}.

(** The promotion of a Python [int] to binary64; exact below [2^53]. *)
Definition float_of_int (z : Z) : float :=
  match z with
  | Z0 => 0%float
  | Zpos _ => PrimFloat.of_uint63 (Uint63.of_Z z)
  | Zneg _ => PrimFloat.opp (PrimFloat.of_uint63 (Uint63.of_Z (Z.opp z)))
  end.

(** IEEE-754 binary64, round to nearest even: CPython's [float]. *)
#[export] Instance PyNum_float : PyNum float := {
  num_of_int := float_of_int;
  num_add := PrimFloat.add;
  num_mul := PrimFloat.mul;
  num_div := PrimFloat.div;
  num_is_zero := fun x => PrimFloat.eqb x 0%float
}.

(** ** ascent_time.py *)

Definition n_cavers_message : string :=
  "n_cavers must be an integer of at least 1".

(** [if not isinstance(n_cavers, int) or n_cavers < 1: raise ValueError(..)]
    The [or] short-circuits: [n_cavers < 1] is evaluated on integers only. *)
Definition check_n_cavers (n_cavers : value) : result Z :=
  match isinstance_int n_cavers with
  | None => Raise (ValueError n_cavers_message)
  | Some n => if (n <? 1)%Z then Raise (ValueError n_cavers_message) else Ok n
  end.

Section AscentTime.
Context {F : Type} `{PyNum F}.

(** [section_length]: the rope is split only when [n_rebelays > 0]. *)
Definition section_length (rope_length : F) (n_rebelays : Z) : result F :=
  if (0 <? n_rebelays)%Z
  then truediv rope_length (num_of_int (n_rebelays + 1))
  else Ok rope_length.

(** [section_time = (section_length / ascent_speed) + transition_time] *)
Definition section_time (section_length ascent_speed transition_time : F)
  : result F :=
  let* q := truediv section_length ascent_speed in
  Ok (num_add q transition_time).

(** [leader_time = section_time * (n_rebelays + 1)] *)
Definition leader_time (section_time : F) (n_rebelays : Z) : F :=
  num_mul section_time (num_of_int (n_rebelays + 1)).

(** [total_time = leader_time + section_time * (n_cavers - 1)] *)
Definition total_time (leader_time section_time : F) (n_cavers : Z) : F :=
  num_add leader_time (num_mul section_time (num_of_int (n_cavers - 1))).

Definition ascent_time (rope_length : F) (n_cavers : value) (n_rebelays : Z)
    (ascent_speed transition_time : F) : result F :=
  let* n := check_n_cavers n_cavers in
  let* sl := section_length rope_length n_rebelays in
  let* st := section_time sl ascent_speed transition_time in
  let lt := leader_time st n_rebelays in
  Ok (total_time lt st n).

End AscentTime.

(** [(L / s + t) * n], the single-section closed form, evaluated in the
    arithmetic of [F] in the order the expression is written. *)
Definition closed_form {F : Type} `{PyNum F} (L s t : F) (n : Z) : F :=
  num_mul (num_add (num_div L s) t) (num_of_int n).

(** ** ascent_time.py on CPython's numbers

    [ascent_time] once more, with the numbers CPython runs it on:
    [rope_length], [ascent_speed] and [transition_time] are floats, as the
    docstring types them, and [n_cavers] and [n_rebelays] are Python
    integers, of any size.  An integer that meets a float is converted to
    the nearest float, ties to even, and the conversion raises
    [OverflowError] when the integer is beyond the range of floats.  Float
    arithmetic itself raises nothing but the division by zero. *)

Definition int_too_large_message : string :=
  "int too large to convert to float".

Definition int_to_float (z : Z) : result float :=
  match SpecFloat.binary_normalize FloatOps.prec FloatOps.emax z 0 false with
  | S754_infinity _ => Raise (OverflowError int_too_large_message)
  | sf => Ok (SF2Prim sf)
  end.

Definition ascent_time_binary64 (rope_length : float) (n_cavers : value)
    (n_rebelays : Z) (ascent_speed transition_time : float) : result float :=
  let* n := check_n_cavers n_cavers in
  let* section_length :=
    if (0 <? n_rebelays)%Z
    then let* sections := int_to_float (n_rebelays + 1) in
         truediv rope_length sections
    else Ok rope_length in
  let* q := truediv section_length ascent_speed in
  let section_time := PrimFloat.add q transition_time in
  let* sections := int_to_float (n_rebelays + 1) in
  let leader_time := PrimFloat.mul section_time sections in
  let* others := int_to_float (n - 1) in
  Ok (PrimFloat.add leader_time (PrimFloat.mul section_time others)).

(** ** optimum_rebelay.py *)

(** [range(0, stop)]: empty when [stop <= 0]. *)
Definition range0 (stop : Z) : list Z :=
  map Z.of_nat (seq 0 (Z.to_nat stop)).

(** [for x in xs: body], threading the variables the body assigns and
    stopping at the first exception. *)
Fixpoint for_in {A S : Type} (xs : list A) (body : A -> S -> result S)
    (s : S) : result S :=
  match xs with
  | [] => Ok s
  | x :: rest => let* s' := body x s in for_in rest body s'
  end.

Definition Qltb (a b : Q) : bool := negb (Qle_bool b a).

Definition empty_min_message : string := "min() arg is an empty sequence".
Definition empty_max_message : string := "max() arg is an empty sequence".
Definition empty_argmin_message : string :=
  "attempt to get argmin of an empty sequence".

(** Python's [min] and [max] of a list: the first extremal element. *)
Definition py_min (xs : list Q) : result Q :=
  match xs with
  | [] => Raise (ValueError empty_min_message)
  | x :: rest => Ok (fold_left (fun m y => if Qltb y m then y else m) rest x)
  end.

Definition py_max (xs : list Q) : result Q :=
  match xs with
  | [] => Raise (ValueError empty_max_message)
  | x :: rest => Ok (fold_left (fun m y => if Qltb m y then y else m) rest x)
  end.

(** [np.linspace(start, stop, num, endpoint=True)]: [num] evenly spaced
    samples, the last one being [stop] itself. *)
Definition linspace (start stop : Q) (num : Z) : list Q :=
  if (num <=? 0)%Z then []
  else if (num =? 1)%Z then [start]
  else
    let step := (stop - start) / inject_Z (num - 1) in
    map (fun i => start + inject_Z i * step) (range0 (num - 1)) ++ [stop].

(** [np.argmin]: the index of the first occurrence of the minimum. *)
Fixpoint argmin_from (ys : list Q) (i : nat) (best : Q) (best_i : nat) : nat :=
  match ys with
  | [] => best_i
  | y :: rest =>
      if Qltb y best then argmin_from rest (S i) y i
      else argmin_from rest (S i) best best_i
  end.

Definition argmin (ys : list Q) : result nat :=
  match ys with
  | [] => Raise (ValueError empty_argmin_message)
  | y :: rest => Ok (argmin_from rest 1 y 0)
  end.

(** Rounding to the nearest integer, ties to the even one. *)
Definition round_half_even (q : Q) : Z :=
  let f := Qfloor q in
  match Qcompare (q - inject_Z f) (1 # 2) with
  | Lt => f
  | Gt => (f + 1)%Z
  | Eq => if Z.even f then f else (f + 1)%Z
  end.

(** [round(x, 1)] *)
Definition round1 (x : Q) : Q := inject_Z (round_half_even (x * 10)) / 10.

(** [scipy.interpolate.interp1d(x, y, kind='cubic')] is a library routine,
    not code of the repository: the optimiser takes it as a parameter.  It
    either raises or returns the interpolant, a function of the abscissa. *)
Definition interpolator : Type := list Q -> list Q -> result (Q -> Q).

(** The three lines after the interpolation, the same in both functions:
    [x_new = np.linspace(min(..), max(..), num=1000, endpoint=True)],
    [y_new = f(x_new)] and [round(x_new[np.argmin(y_new)], 1)]. *)
Definition dense_minimum (f : Q -> Q) (rebelay_lengths : list Q) : result Q :=
  let* lo := py_min rebelay_lengths in
  let* hi := py_max rebelay_lengths in
  let x_new := linspace lo hi 1000 in
  let y_new := map f x_new in
  let* i := argmin y_new in
  Ok (round1 (nth i x_new 0)).

(** [rebelay_length = rope_length / (n_rebelays + 1)], the first line of
    the loop of both optimisers, in the arithmetic of [F]. *)
Definition rebelay_length {F : Type} `{PyNum F} (rope_length : F)
    (n_rebelays : Z) : result F :=
  truediv rope_length (num_of_int (n_rebelays + 1)).

(** The body of the loop of [optimum_rebelay]; the state is the pair of
    lists [(ascent_times, rebelay_lengths)]. *)
Definition sweep_body (rope_length : Q) (n_cavers : value)
    (ascent_speed transition_time : Q) (n_rebelays : Z)
    (st : list Q * list Q) : result (list Q * list Q) :=
  let '(ascent_times, rebelay_lengths) := st in
  let* rebelay_length := truediv rope_length (inject_Z (n_rebelays + 1)) in
  let rebelay_lengths := rebelay_lengths ++ [rebelay_length] in
  let* time :=
    ascent_time rope_length n_cavers n_rebelays ascent_speed transition_time in
  let ascent_times := ascent_times ++ [time] in
  Ok (ascent_times, rebelay_lengths).

(** The loop of [optimum_rebelay], from the two empty lists. *)
Definition rebelay_sweep (rope_length : Q) (n_cavers : value)
    (ascent_speed transition_time : Q) (max_number_rebelays : Z)
    : result (list Q * list Q) :=
  for_in (range0 max_number_rebelays)
    (sweep_body rope_length n_cavers ascent_speed transition_time) ([], []).

(** The same loop in the arithmetic of [F]: at [Q] it is [rebelay_sweep],
    at [float] it is the loop on binary64 numbers. *)
Definition sweep_body_num {F : Type} `{PyNum F} (rope_length : F)
    (n_cavers : value) (ascent_speed transition_time : F) (n_rebelays : Z)
    (st : list F * list F) : result (list F * list F) :=
  let '(ascent_times, rebelay_lengths) := st in
  let* rebelay_length := rebelay_length rope_length n_rebelays in
  let rebelay_lengths := rebelay_lengths ++ [rebelay_length] in
  let* time :=
    ascent_time rope_length n_cavers n_rebelays ascent_speed transition_time in
  let ascent_times := ascent_times ++ [time] in
  Ok (ascent_times, rebelay_lengths).

Definition rebelay_sweep_num {F : Type} `{PyNum F} (rope_length : F)
    (n_cavers : value) (ascent_speed transition_time : F)
    (max_number_rebelays : Z) : result (list F * list F) :=
  for_in (range0 max_number_rebelays)
    (sweep_body_num rope_length n_cavers ascent_speed transition_time)
    ([], []).

(** The body of the loop of [optimum_rebelay_both_ways]. *)
Definition both_ways_body (rope_length : Q) (n_cavers : value)
    (ascent_speed descent_speed transition_time : Q) (n_rebelays : Z)
    (st : list Q * list Q) : result (list Q * list Q) :=
  let '(ascent_times, rebelay_lengths) := st in
  let* rebelay_length := truediv rope_length (inject_Z (n_rebelays + 1)) in
  let rebelay_lengths := rebelay_lengths ++ [rebelay_length] in
  let* time_up :=
    ascent_time rope_length n_cavers n_rebelays ascent_speed transition_time in
  let* time_down :=
    ascent_time rope_length n_cavers n_rebelays descent_speed transition_time in
  let ascent_times := ascent_times ++ [time_up + time_down] in
  Ok (ascent_times, rebelay_lengths).

Definition both_ways_sweep (rope_length : Q) (n_cavers : value)
    (ascent_speed descent_speed transition_time : Q) (max_number_rebelays : Z)
    : result (list Q * list Q) :=
  for_in (range0 max_number_rebelays)
    (both_ways_body rope_length n_cavers ascent_speed descent_speed
       transition_time) ([], []).

Definition default_max_number_rebelays : Z := 100.

Section Optimiser.
Variable interp1d : interpolator.

(** [optimum_rebelay]: the loop, then
    [f = interp1d(rebelay_lengths, ascent_times, kind='cubic')] on the two
    lists as the loop left them, then the dense search. *)
Definition optimum_rebelay (rope_length : Q) (n_cavers : value)
    (ascent_speed transition_time : Q) (max_number_rebelays : Z) : result Q :=
  let* '(ascent_times, rebelay_lengths) :=
    rebelay_sweep rope_length n_cavers ascent_speed transition_time
      max_number_rebelays in
  let* f := interp1d rebelay_lengths ascent_times in
  dense_minimum f rebelay_lengths.

Definition optimum_rebelay_both_ways (rope_length : Q) (n_cavers : value)
    (ascent_speed descent_speed transition_time : Q)
    (max_number_rebelays : Z) : result Q :=
  let* '(ascent_times, rebelay_lengths) :=
    both_ways_sweep rope_length n_cavers ascent_speed descent_speed
      transition_time max_number_rebelays in
  let* f := interp1d rebelay_lengths ascent_times in
  dense_minimum f rebelay_lengths.

End Optimiser.

(** ** A reference interpolation routine

    Piecewise-linear interpolation between the samples, sorted by abscissa
    as [interp1d] sorts them, refusing fewer than four samples as the cubic
    kind does.  It stands for the library routine wherever a statement has
    to be run on a concrete input. *)

Definition too_few_message : string :=
  "x and y arrays must have at least 4 entries".
Definition unequal_message : string :=
  "x and y arrays must be equal in length along interpolation axis.".

Fixpoint insert_sample (p : Q * Q) (l : list (Q * Q)) : list (Q * Q) :=
  match l with
  | [] => [p]
  | q :: rest =>
      if Qle_bool (fst p) (fst q) then p :: l else q :: insert_sample p rest
  end.

Definition sort_samples (l : list (Q * Q)) : list (Q * Q) :=
  fold_right insert_sample [] l.

Fixpoint eval_linear (l : list (Q * Q)) (x : Q) : Q :=
  match l with
  | [] => 0
  | (x0, y0) :: rest =>
      match rest with
      | [] => y0
      | (x1, y1) :: _ =>
          if Qle_bool x x1
          then y0 + (y1 - y0) * ((x - x0) / (x1 - x0))
          else eval_linear rest x
      end
  end.

Definition interp1d_linear : interpolator := fun x y =>
  if negb (List.length x =? List.length y)%nat then Raise (ValueError unequal_message)
  else if (List.length x <? 4)%nat then Raise (ValueError too_few_message)
  else Ok (eval_linear (sort_samples (combine x y))).

(** ** rebelay_plots.py

    The two plotting functions compute what they draw and hand it to
    matplotlib, whose figure is state outside the repository.  A figure is
    modelled by the drawing calls that carry computed data, in the order the
    code makes them; labels, colours, legend and grid are left out, and a
    figure is only seen if the function reaches [plt.show()], that is if it
    raises nothing. *)

(** [range(start, stop)] *)
Definition py_range (start stop : Z) : list Z :=
  map (fun i => (start + Z.of_nat i)%Z) (seq 0 (Z.to_nat (stop - start))).

Inductive draw : Type :=
| Scatter (x : list Z) (y : list Q) (label : string)
| Plot (x y : list Q)
| SetYlim (lo hi : Q)
| SetXlim (lo hi : Q)
| Axvline (x : Q).

Definition empty_np_min_message : string :=
  "zero-size array to reduction operation minimum which has no identity".
Definition list_index_message : string := "list index out of range".

(** [np.min] of a list. *)
Definition np_min (xs : list Q) : result Q :=
  match xs with
  | [] => Raise (ValueError empty_np_min_message)
  | x :: rest => Ok (fold_left (fun m y => if Qltb y m then y else m) rest x)
  end.

(** [xs[0]] *)
Definition first_item (xs : list Q) : result Q :=
  match xs with
  | [] => Raise (IndexError list_index_message)
  | x :: _ => Ok x
  end.

(** One of the three loops of [plot_optimum_rebelay_length_both_ways]:
    [for n_cavers in cavers_range:] compute the optimum and append it. *)
Definition optimum_series (optimum : value -> result Q)
    (cavers_range : list Z) : result (list Q) :=
  for_in cavers_range
    (fun n_cavers optimum_rebelay_lengths =>
       let* optimum_rebelay_length := optimum (PyInt n_cavers) in
       Ok (optimum_rebelay_lengths ++ [optimum_rebelay_length]))
    [].

Section Plots.
Variable interp1d : interpolator.

(** [plot_ascent_times]: the loop and the search of [optimum_rebelay], word
    for word, then the curve, the two axis ranges and the marker. *)
Definition plot_ascent_times (rope_length : Q) (n_cavers : value)
    (ascent_speed transition_time : Q) (max_number_rebelays : Z)
    : result (list draw) :=
  let* '(ascent_times, rebelay_lengths) :=
    for_in (range0 max_number_rebelays)
      (sweep_body rope_length n_cavers ascent_speed transition_time)
      ([], []) in
  let* f := interp1d rebelay_lengths ascent_times in
  let* optimum_rebelay_length := dense_minimum f rebelay_lengths in
  let fig := [Plot rebelay_lengths ascent_times] in
  let* lowest := np_min ascent_times in
  let* no_rebelay := first_item ascent_times in
  let fig := fig ++ [SetYlim ((9 # 10) * lowest) no_rebelay] in
  let fig := fig ++ [SetXlim 0 rope_length] in
  Ok (fig ++ [Axvline optimum_rebelay_length]).

(** [plot_optimum_rebelay_length_both_ways]: three loops over
    [range(1, max_cavers+1)].  The second one passes the literals
    [transition_time=2] and [max_number_rebelays=100], as the source does. *)
Definition plot_optimum_rebelay_length_both_ways (rope_length : Q)
    (max_cavers : Z) (ascent_speed descent_speed transition_time : Q)
    (max_rebelays : Z) : result (list draw) :=
  let cavers_range := py_range 1 (max_cavers + 1) in
  let* optimum_rebelay_lengths :=
    optimum_series
      (fun n_cavers => optimum_rebelay interp1d rope_length n_cavers
                         ascent_speed transition_time max_rebelays)
      cavers_range in
  let fig := [Scatter cavers_range optimum_rebelay_lengths "Ascent"] in
  let cavers_range := py_range 1 (max_cavers + 1) in
  let* optimum_rebelay_lengths :=
    optimum_series
      (fun n_cavers => optimum_rebelay_both_ways interp1d rope_length n_cavers
                         ascent_speed descent_speed 2 100)
      cavers_range in
  let fig := fig ++ [Scatter cavers_range optimum_rebelay_lengths "Both"] in
  let cavers_range := py_range 1 (max_cavers + 1) in
  let* optimum_rebelay_lengths :=
    optimum_series
      (fun n_cavers => optimum_rebelay interp1d rope_length n_cavers
                         descent_speed transition_time max_rebelays)
      cavers_range in
  let fig := fig ++ [Scatter cavers_range optimum_rebelay_lengths "Descent"] in
  Ok (fig ++ [SetYlim 0 rope_length]).

End Plots.

(** * Vocabulary of the statements *)

(** "An integer of at least 1", as [isinstance(_, int)] understands integer. *)
Definition integer_at_least_1 (v : value) : Prop :=
  exists n : Z, isinstance_int v = Some n /\ (1 <= n)%Z.

(** The value [ascent_time] computes when it raises nothing. *)
Definition ascent_value (L : Q) (n r : Z) (s t : Q) : Q :=
  let sl := if (0 <? r)%Z then L / inject_Z (r + 1) else L in
  let st := sl / s + t in
  st * inject_Z (r + 1) + st * inject_Z (n - 1).


(** The abscissae the sweep collects for the rebelay counts [rs]. *)
Definition sample_lengths (L : Q) (rs : list Z) : list Q :=
  map (fun k => L / inject_Z (k + 1)) rs.

(** The results of [time_at] on [rs] in order, up to the first exception. *)
Fixpoint collect_times (time_at : Z -> result Q) (rs : list Z)
    : result (list Q) :=
  match rs with
  | [] => Ok []
  | k :: rest =>
      let* x := time_at k in
      let* xs := collect_times time_at rest in
      Ok (x :: xs)
  end.


(** The routine returns an interpolant on the samples of the sweep. *)
Definition accepts_sweep (interp : interpolator) (L : Q) (n : value)
    (s t : Q) (m : Z) : Prop :=
  forall ts ls, rebelay_sweep L n s t m = Ok (ts, ls) ->
    exists f, interp ls ts = Ok f.


(** [a <= x <= b] *)
Definition between (a b x : Q) : Prop := a <= x /\ x <= b.

(** [i < j] implies [l[j] < l[i]] *)
Definition strictly_decreasing (l : list Q) : Prop :=
  forall i j, (i < j)%nat -> (j < List.length l)%nat ->
    nth j l 0 < nth i l 0.

(** * Properties of the timing model *)

(** What [np.argmin] promises: an index of the list at which the value is
    least, and the first such index. *)
Definition first_minimum (ys : list Q) (i : nat) : Prop :=
  (i < List.length ys)%nat /\
  (forall j, (j < List.length ys)%nat -> nth i ys 0 <= nth j ys 0) /\
  (forall j, (j < i)%nat -> nth i ys 0 < nth j ys 0).

(** The figure [plot_optimum_rebelay_length_both_ways] draws from its three
    series. *)
Definition three_series (cavers_range : list Z) (ascent both descent : list Q)
    (rope_length : Q) : list draw :=
  [Scatter cavers_range ascent "Ascent"; Scatter cavers_range both "Both";
   Scatter cavers_range descent "Descent"; SetYlim 0 rope_length].

Lemma Qeq_bool_false (q : Q) : ~ q == 0 -> Qeq_bool q 0 = false.
Proof.
  intros Hq. destruct (Qeq_bool q 0) eqn:E; [|reflexivity].
  apply Qeq_bool_eq in E. contradiction.
Qed.

Lemma Qeq_bool_true (q : Q) : q == 0 -> Qeq_bool q 0 = true.
Proof. intros Hq. apply Qeq_eq_bool. exact Hq. Qed.

Lemma truediv_Q_ok (a b : Q) : ~ b == 0 -> truediv a b = Ok (a / b).
Proof. intros Hb. unfold truediv. simpl. rewrite Qeq_bool_false; auto. Qed.

Lemma truediv_Q_zero (a b : Q) : b == 0 -> truediv a b = Raise ZeroDivisionError.
Proof. intros Hb. unfold truediv. simpl. rewrite Qeq_bool_true; auto. Qed.

Lemma inject_Z_nonzero (z : Z) : (z <> 0)%Z -> ~ inject_Z z == 0.
Proof.
  intros Hz E. apply Hz. unfold Qeq in E. simpl in E. lia.
Qed.

Lemma check_n_cavers_ok (v : value) (n : Z) :
  isinstance_int v = Some n -> (1 <= n)%Z -> check_n_cavers v = Ok n.
Proof.
  intros Hv Hn. unfold check_n_cavers. rewrite Hv.
  destruct (Z.ltb_spec n 1); [lia | reflexivity].
Qed.

Lemma check_n_cavers_invalid (v : value) :
  ~ integer_at_least_1 v -> check_n_cavers v = Raise (ValueError n_cavers_message).
Proof.
  intros Hv. unfold check_n_cavers.
  destruct (isinstance_int v) as [n|] eqn:E; [|reflexivity].
  destruct (Z.ltb_spec n 1); [reflexivity|].
  exfalso. apply Hv. exists n. split; [exact E | lia].
Qed.

Lemma check_n_cavers_valid (v : value) (n : Z) :
  check_n_cavers v = Ok n -> isinstance_int v = Some n /\ (1 <= n)%Z.
Proof.
  unfold check_n_cavers. destruct (isinstance_int v) as [m|]; [|discriminate].
  destruct (Z.ltb_spec m 1); [discriminate|].
  intros E. injection E as ->. split; [reflexivity | lia].
Qed.

(** The division that cuts the rope into sections cannot fail: it is only
    reached when [n_rebelays > 0]. *)
Lemma section_length_ok (L : Q) (r : Z) :
  section_length L r = Ok (if (0 <? r)%Z then L / inject_Z (r + 1) else L).
Proof.
  unfold section_length. destruct (Z.ltb_spec 0 r) as [Hr|Hr]; [|reflexivity].
  apply truediv_Q_ok. apply inject_Z_nonzero. lia.
Qed.

Lemma ascent_time_ok (L : Q) (v : value) (n r : Z) (s t : Q) :
  isinstance_int v = Some n -> (1 <= n)%Z -> ~ s == 0 ->
  ascent_time L v r s t = Ok (ascent_value L n r s t).
Proof.
  intros Hv Hn Hs. unfold ascent_time.
  rewrite (check_n_cavers_ok v n Hv Hn). simpl.
  rewrite section_length_ok. simpl.
  unfold section_time. rewrite (truediv_Q_ok _ s Hs). reflexivity.
Qed.

Lemma ascent_time_zero_speed (L : Q) (v : value) (r : Z) (s t : Q) :
  integer_at_least_1 v -> s == 0 ->
  ascent_time L v r s t = Raise ZeroDivisionError.
Proof.
  intros (n & Hv & Hn) Hs. unfold ascent_time.
  rewrite (check_n_cavers_ok v n Hv Hn). simpl.
  rewrite section_length_ok. simpl.
  unfold section_time. rewrite (truediv_Q_zero _ s Hs). reflexivity.
Qed.

Lemma ascent_time_invalid (L : Q) (v : value) (r : Z) (s t : Q) :
  ~ integer_at_least_1 v ->
  ascent_time L v r s t = Raise (ValueError n_cavers_message).
Proof.
  intros Hv. unfold ascent_time. rewrite (check_n_cavers_invalid v Hv). reflexivity.
Qed.


(** ** The single-section closed form *)

(** C1 (exact arithmetic): with [n_rebelays = 0], a speed [s > 0] and an
    integer [n >= 1], [ascent_time] returns a value equal to
    [(L / s + t) * n]. *)
Theorem single_section_closed_form (L s t : Q) (n : Z) :
  0 < s -> (1 <= n)%Z ->
  exists v, ascent_time L (PyInt n) 0 s t = Ok v /\ v == (L / s + t) * inject_Z n.
Proof.
  intros Hs Hn.
  exists (ascent_value L n 0 s t). split.
  - apply ascent_time_ok; [reflexivity | exact Hn | lra].
  - unfold ascent_value. simpl.
    replace (inject_Z (n - 1)) with (inject_Z (n + - 1)) by (f_equal; lia).
    rewrite inject_Z_plus. simpl. field. lra.
Qed.

Lemma single_section_closed_form_witness :
  0 < 7 /\ (1 <= 6)%Z /\
  exists v, ascent_time 100 (PyInt 6) 0 7 2 = Ok v /\ v == (100 / 7 + 2) * inject_Z 6.
Proof.
  split; [reflexivity|]. split; [lia|].
  apply (single_section_closed_form 100 7 2 6); [reflexivity | lia].
Defined.

(** C1 (binary64): at [L = 100], [n = 6], [s = 7], [t = 2] the value
    [ascent_time] returns, 97.7142857142857, is one unit in the last place
    below [(L / s + t) * n = 97.71428571428571] computed in the same
    arithmetic: the two are not equal as floats. *)
Lemma single_section_binary64_differs :
  exists a b : float,
    ascent_time 100%float (PyInt 6) 0 7%float 2%float = Ok a /\
    closed_form 100%float 7%float 2%float 6 = b /\
    PrimFloat.ltb a b = true /\
    PrimFloat.eqb a b = false /\
    PrimFloat.next_up a = b.
Proof.
  eexists. eexists.
  split; [vm_compute; reflexivity|].
  split; [vm_compute; reflexivity|].
  split; [|split]; vm_compute; reflexivity.
Qed.

(** ** The worked example *)

(** C9: [ascent_time(100, 4, 3, 7, 2)] goes through [section_length = 25],
    [section_time = 25/7 + 2] and [leader_time = 4 * (25/7 + 2)], adds three
    more section times and returns [7 * (25/7 + 2) = 39] in exact rational
    arithmetic; binary64 returns 39.0 as well. *)
Theorem worked_example_39 :
  exists sl st v : Q,
    section_length 100 3 = Ok sl /\ sl == 25 /\
    section_time sl 7 2 = Ok st /\ st == 25 / 7 + 2 /\
    leader_time st 3 == 4 * (25 / 7 + 2) /\
    ascent_time 100 (PyInt 4) 3 7 2 = Ok v /\
    v = total_time (leader_time st 3) st 4 /\
    v == leader_time st 3 + 3 * st /\
    v == 7 * (25 / 7 + 2) /\
    v == 39 /\
    ascent_time 100%float (PyInt 4) 3 7%float 2%float = Ok 39%float.
Proof.
  eexists. eexists. eexists.
  split; [vm_compute; reflexivity|].
  split; [reflexivity|].
  split; [vm_compute; reflexivity|].
  split; [reflexivity|].
  split; [reflexivity|].
  split; [vm_compute; reflexivity|].
  split; [vm_compute; reflexivity|].
  split; [reflexivity|].
  split; [reflexivity|].
  split; [reflexivity|].
  vm_compute. reflexivity.
Qed.

(** ** Validation of [n_cavers] *)

Lemma int_to_float_cases (z : Z) :
  (exists f, int_to_float z = Ok f) \/
  int_to_float z = Raise (OverflowError int_too_large_message).
Proof.
  unfold int_to_float.
  destruct (SpecFloat.binary_normalize FloatOps.prec FloatOps.emax z 0 false);
    eauto.
Qed.

Lemma ascent_time_binary64_invalid (L : float) (v : value) (r : Z)
    (s t : float) :
  ~ integer_at_least_1 v ->
  ascent_time_binary64 L v r s t = Raise (ValueError n_cavers_message).
Proof.
  intros Hv. unfold ascent_time_binary64.
  rewrite (check_n_cavers_invalid v Hv). reflexivity.
Qed.

(** With a valid [n_cavers] the binary64 reading returns, divides by zero
    or fails to convert an integer: it raises no [ValueError]. *)
Lemma ascent_time_binary64_valid (L : float) (v : value) (r : Z)
    (s t : float) :
  integer_at_least_1 v ->
  (exists x, ascent_time_binary64 L v r s t = Ok x) \/
  ascent_time_binary64 L v r s t = Raise ZeroDivisionError \/
  ascent_time_binary64 L v r s t = Raise (OverflowError int_too_large_message).
Proof.
  intros (n & Hv & Hn). unfold ascent_time_binary64.
  rewrite (check_n_cavers_ok v n Hv Hn). cbv beta iota delta [bind].
  assert (Hdiv : forall a b : float,
             (exists q, truediv a b = Ok q) \/
             truediv a b = Raise ZeroDivisionError).
  { intros a b. unfold truediv. destruct (num_is_zero b); eauto. }
  assert (Hsl : (exists sl,
                   (if (0 <? r)%Z
                    then match int_to_float (r + 1) with
                         | Ok sections => truediv L sections
                         | Raise e => Raise e
                         end
                    else Ok L) = Ok sl) \/
                (if (0 <? r)%Z
                 then match int_to_float (r + 1) with
                      | Ok sections => truediv L sections
                      | Raise e => Raise e
                      end
                 else Ok L) = Raise ZeroDivisionError \/
                (if (0 <? r)%Z
                 then match int_to_float (r + 1) with
                      | Ok sections => truediv L sections
                      | Raise e => Raise e
                      end
                 else Ok L) = Raise (OverflowError int_too_large_message)).
  { destruct (0 <? r)%Z; [|eauto].
    destruct (int_to_float_cases (r + 1)) as [[f ->]| ->]; [|auto].
    destruct (Hdiv L f) as [[q ->]| ->]; eauto. }
  destruct Hsl as [[sl ->]|[-> | ->]]; [|auto|auto].
  destruct (Hdiv sl s) as [[q ->]| ->]; [|auto].
  destruct (int_to_float_cases (r + 1)) as [[f ->]| ->]; [|auto].
  destruct (int_to_float_cases (n - 1)) as [[g ->]| ->]; [|auto].
  left. eexists. reflexivity.
Qed.

(** C3 (as the code has it): [ascent_time] raises its [ValueError] exactly
    when [n_cavers] is not an integer of at least 1, in exact arithmetic and
    on CPython's numbers alike; it does so whatever the other arguments are
    (a zero speed included: the check comes before the arithmetic); 0 and 2.5
    are refused; and with a valid [n_cavers] and a non-zero speed it returns
    a value in exact arithmetic. *)
Theorem n_cavers_validation (L : Q) (v : value) (r : Z) (s t : Q)
    (L64 s64 t64 : float) :
  ((exists msg, ascent_time L v r s t = Raise (ValueError msg))
     <-> ~ integer_at_least_1 v) /\
  (~ integer_at_least_1 v ->
     ascent_time L v r s t = Raise (ValueError n_cavers_message)) /\
  ascent_time L (PyInt 0) r s t = Raise (ValueError n_cavers_message) /\
  ascent_time L (PyFloat 2.5) r s t = Raise (ValueError n_cavers_message) /\
  (integer_at_least_1 v -> ~ s == 0 ->
     exists x, ascent_time L v r s t = Ok x) /\
  ((exists msg, ascent_time_binary64 L64 v r s64 t64 = Raise (ValueError msg))
     <-> ~ integer_at_least_1 v) /\
  (~ integer_at_least_1 v ->
     ascent_time_binary64 L64 v r s64 t64 = Raise (ValueError n_cavers_message)).
Proof.
  split; [split|split; [|split; [|split; [|split; [|split; [split|]]]]]].
  - intros [msg E]. intros Hv.
    destruct (Qeq_dec s 0) as [Hs|Hs].
    + rewrite (ascent_time_zero_speed L v r s t Hv Hs) in E. discriminate.
    + destruct Hv as (n & Hv & Hn).
      rewrite (ascent_time_ok L v n r s t Hv Hn Hs) in E. discriminate.
  - intros Hv. exists n_cavers_message. apply ascent_time_invalid. exact Hv.
  - apply ascent_time_invalid.
  - reflexivity.
  - reflexivity.
  - intros (n & Hv & Hn) Hs. eexists. apply ascent_time_ok; eauto.
  - intros [msg E] Hv.
    destruct (ascent_time_binary64_valid L64 v r s64 t64 Hv)
      as [[x Ex]|[Ex|Ex]]; rewrite Ex in E; discriminate.
  - intros Hv. exists n_cavers_message.
    apply ascent_time_binary64_invalid. exact Hv.
  - apply ascent_time_binary64_invalid.
Qed.

(** C3 (as claimed) fails in its last clause on CPython's numbers: with
    [n_cavers = 10 ** 400], an integer of at least 1, and the speed 7, the
    product [section_time * (n_cavers - 1)] cannot convert its integer and
    the call raises [OverflowError] instead of returning a value. *)
Lemma valid_n_cavers_can_overflow :
  integer_at_least_1 (PyInt (10 ^ 400)) /\
  PrimFloat.eqb 7 0 = false /\
  ascent_time_binary64 100 (PyInt (10 ^ 400)) 0 7 2
    = Raise (OverflowError int_too_large_message).
Proof.
  split; [|split].
  - exists (10 ^ 400)%Z. split; [reflexivity|].
    apply Z.leb_le. vm_compute. reflexivity.
  - vm_compute. reflexivity.
  - vm_compute. reflexivity.
Qed.

(** ** Monotonicity in the number of cavers *)

Lemma section_time_nonneg (L : Q) (r : Z) (s t : Q) :
  0 < L -> 0 < s -> 0 <= t -> (0 <= r)%Z ->
  0 <= (if (0 <? r)%Z then L / inject_Z (r + 1) else L) / s + t.
Proof.
  intros HL Hs Ht Hr.
  assert (Hsl : 0 < (if (0 <? r)%Z then L / inject_Z (r + 1) else L)).
  { destruct (0 <? r)%Z; [|exact HL].
    apply Qlt_shift_div_l; [|lra].
    replace 0 with (inject_Z 0) by reflexivity. rewrite <- Zlt_Qlt. lia. }
  assert (0 < (if (0 <? r)%Z then L / inject_Z (r + 1) else L) / s).
  { apply Qlt_shift_div_l; [exact Hs | lra]. }
  lra.
Qed.

(** C7 (exact arithmetic): for [L > 0], [s > 0], [t >= 0],
    [n_rebelays >= 0] and integers [1 <= n1 <= n2], both calls return and
    the time for [n1] cavers is at most the time for [n2]. *)
Theorem monotone_in_n_cavers (L s t : Q) (r n1 n2 : Z) :
  0 < L -> 0 < s -> 0 <= t -> (0 <= r)%Z -> (1 <= n1)%Z -> (n1 <= n2)%Z ->
  exists v1 v2,
    ascent_time L (PyInt n1) r s t = Ok v1 /\
    ascent_time L (PyInt n2) r s t = Ok v2 /\
    v1 <= v2.
Proof.
  intros HL Hs Ht Hr H1 H12.
  exists (ascent_value L n1 r s t), (ascent_value L n2 r s t).
  split; [apply ascent_time_ok; [reflexivity | lia | lra]|].
  split; [apply ascent_time_ok; [reflexivity | lia | lra]|].
  unfold ascent_value.
  pose proof (section_time_nonneg L r s t HL Hs Ht Hr) as Hst.
  set (st := (if (0 <? r)%Z then L / inject_Z (r + 1) else L) / s + t) in *.
  cbv zeta.
  apply Qplus_le_r.
  rewrite !(Qmult_comm st).
  apply Qmult_le_compat_r; [|exact Hst].
  rewrite <- Zle_Qle. lia.
Qed.

Lemma monotone_in_n_cavers_witness :
  0 < 100 /\ 0 < 7 /\ 0 <= 2 /\ (0 <= 3)%Z /\ (1 <= 2)%Z /\ (2 <= 5)%Z /\
  exists v1 v2,
    ascent_time 100 (PyInt 2) 3 7 2 = Ok v1 /\
    ascent_time 100 (PyInt 5) 3 7 2 = Ok v2 /\
    v1 <= v2.
Proof.
  do 6 (split; [first [reflexivity | lia | discriminate]|]).
  apply (monotone_in_n_cavers 100 7 2 3 2 5);
    first [reflexivity | lia | discriminate].
Defined.

(** C7 (binary64): when [L / s] overflows the section time is infinite;
    one caver then gets [inf + inf * 0], which is not a number, two cavers
    get [inf], and [nan <= inf] is false.  Here [L = 2^1000], [s = 2^-100],
    [t = 2] and no rebelays. *)
Lemma monotonicity_lost_on_overflow :
  exists a b : float,
    PrimFloat.ltb 0 0x1p1000 = true /\
    PrimFloat.ltb 0 0x1p-100 = true /\
    PrimFloat.leb 0 2 = true /\
    ascent_time 0x1p1000%float (PyInt 1) 0 0x1p-100%float 2%float = Ok a /\
    ascent_time 0x1p1000%float (PyInt 2) 0 0x1p-100%float 2%float = Ok b /\
    PrimFloat.is_nan a = true /\
    b = infinity /\
    PrimFloat.leb a b = false.
Proof.
  eexists. eexists.
  do 3 (split; [vm_compute; reflexivity|]).
  split; [vm_compute; reflexivity|].
  split; [vm_compute; reflexivity|].
  split; [|split]; vm_compute; reflexivity.
Qed.

(** ** The division by the speed *)



(** The two binary64 readings agree where both apply: on the inputs of the
    statements above the generic model at [float] and the reading with
    CPython's conversion of integers return the same float. *)
Lemma binary64_readings_agree :
  ascent_time_binary64 100 (PyInt 6) 0 7 2
    = ascent_time 100%float (PyInt 6) 0 7%float 2%float /\
  ascent_time_binary64 100 (PyInt 4) 3 7 2
    = ascent_time 100%float (PyInt 4) 3 7%float 2%float /\
  ascent_time_binary64 0x1p1000 (PyInt 2) 0 0x1p-100 2
    = ascent_time 0x1p1000%float (PyInt 2) 0 0x1p-100%float 2%float.
Proof. repeat split; vm_compute; reflexivity. Qed.

(** * Properties of the sweep *)

Lemma range0_length (m : Z) : List.length (range0 m) = Z.to_nat m.
Proof. unfold range0. rewrite length_map, length_seq. reflexivity. Qed.

Lemma range0_nth (m : Z) (k : nat) :
  (k < Z.to_nat m)%nat -> nth k (range0 m) 0%Z = Z.of_nat k.
Proof.
  intros Hk. unfold range0.
  change (nth k (map Z.of_nat (seq 0 (Z.to_nat m))) (Z.of_nat 0) = Z.of_nat k).
  rewrite map_nth, seq_nth by exact Hk. reflexivity.
Qed.

Lemma range0_In (m k : Z) : In k (range0 m) <-> (0 <= k < m)%Z.
Proof.
  unfold range0. rewrite in_map_iff. split.
  - intros (i & <- & Hi). apply in_seq in Hi. lia.
  - intros Hk. exists (Z.to_nat k). split; [lia|]. apply in_seq. lia.
Qed.

Lemma range0_nonneg (m : Z) : Forall (fun k => (0 <= k)%Z) (range0 m).
Proof. apply Forall_forall. intros k Hk. apply range0_In in Hk. lia. Qed.

Lemma range0_empty (m : Z) : (m <= 0)%Z -> range0 m = [].
Proof.
  intros Hm. unfold range0. replace (Z.to_nat m) with 0%nat by lia. reflexivity.
Qed.

(** The loop of [optimum_rebelay], from any state: the lengths are appended
    whatever happens, the times up to the first exception of [ascent_time]. *)
Lemma for_in_sweep_body (L : Q) (n : value) (s t : Q) (rs : list Z) :
  Forall (fun k => (0 <= k)%Z) rs ->
  forall ts0 ls0,
    for_in rs (sweep_body L n s t) (ts0, ls0) =
    let* ts := collect_times (fun k => ascent_time L n k s t) rs in
    Ok (ts0 ++ ts, ls0 ++ sample_lengths L rs).
Proof.
  induction 1 as [|k rest Hk _ IH]; intros ts0 ls0.
  - simpl. rewrite !app_nil_r. reflexivity.
  - simpl. rewrite truediv_Q_ok by (apply inject_Z_nonzero; lia). simpl.
    destruct (ascent_time L n k s t) as [x|e]; [|reflexivity]. simpl.
    rewrite IH.
    destruct (collect_times _ rest) as [xs|e]; [|reflexivity]. simpl.
    rewrite <- !app_assoc. reflexivity.
Qed.

Lemma rebelay_sweep_spec (L : Q) (n : value) (s t : Q) (m : Z) :
  rebelay_sweep L n s t m =
  let* ts := collect_times (fun k => ascent_time L n k s t) (range0 m) in
  Ok (ts, sample_lengths L (range0 m)).
Proof.
  unfold rebelay_sweep. rewrite for_in_sweep_body by apply range0_nonneg.
  reflexivity.
Qed.

Lemma collect_times_Ok (time_at : Z -> result Q) (rs : list Z) (ts : list Q) :
  collect_times time_at rs = Ok ts ->
  List.length ts = List.length rs /\
  forall k, (k < List.length rs)%nat ->
    time_at (nth k rs 0%Z) = Ok (nth k ts 0).
Proof.
  revert ts. induction rs as [|r rest IH]; intros ts E; simpl in E.
  - injection E as <-. split; [reflexivity|]. simpl. intros k Hk. lia.
  - destruct (time_at r) as [x|e] eqn:Ex; [|discriminate]. simpl in E.
    destruct (collect_times time_at rest) as [xs|e]; [|discriminate].
    simpl in E. injection E as <-.
    destruct (IH xs eq_refl) as [Hlen Hnth].
    split; [simpl; congruence|].
    intros [|k] Hk; simpl; [exact Ex|]. apply Hnth. simpl in Hk. lia.
Qed.

Lemma collect_times_Raise (time_at : Z -> result Q) (rs : list Z) (e : exn) :
  collect_times time_at rs = Raise e ->
  exists k, In k rs /\ time_at k = Raise e.
Proof.
  induction rs as [|r rest IH]; simpl; intros E; [discriminate|].
  destruct (time_at r) as [x|e'] eqn:Ex.
  - simpl in E. destruct (collect_times time_at rest) as [xs|e'']; [discriminate|].
    simpl in E. injection E as ->.
    destruct (IH eq_refl) as (k & Hk & Ek). exists k. auto.
  - simpl in E. injection E as ->. exists r. auto.
Qed.

Lemma collect_times_all_Ok (time_at : Z -> result Q) (v : Z -> Q) (rs : list Z) :
  (forall k, In k rs -> time_at k = Ok (v k)) ->
  collect_times time_at rs = Ok (map v rs).
Proof.
  induction rs as [|r rest IH]; intros Hall; simpl; [reflexivity|].
  rewrite (Hall r) by (left; reflexivity). simpl.
  rewrite IH by (intros k Hk; apply Hall; right; exact Hk). reflexivity.
Qed.

(** With a valid [n_cavers] and a non-zero speed the sweep returns. *)
Lemma rebelay_sweep_valid (L : Q) (v : value) (n : Z) (s t : Q) (m : Z) :
  isinstance_int v = Some n -> (1 <= n)%Z -> ~ s == 0 ->
  rebelay_sweep L v s t m =
  Ok (map (fun k => ascent_value L n k s t) (range0 m),
      sample_lengths L (range0 m)).
Proof.
  intros Hv Hn Hs. rewrite rebelay_sweep_spec.
  rewrite (collect_times_all_Ok _ (fun k => ascent_value L n k s t)).
  - reflexivity.
  - intros k _. apply ascent_time_ok; assumption.
Qed.

Lemma sample_lengths_length (L : Q) (rs : list Z) :
  List.length (sample_lengths L rs) = List.length rs.
Proof. unfold sample_lengths. apply length_map. Qed.

Lemma sample_lengths_nth (L : Q) (m : Z) (k : nat) :
  (k < Z.to_nat m)%nat ->
  nth k (sample_lengths L (range0 m)) 0 = L / inject_Z (Z.of_nat k + 1).
Proof.
  intros Hk. unfold sample_lengths.
  rewrite (nth_indep _ 0 (L / inject_Z (0 + 1)))
    by (rewrite length_map, range0_length; exact Hk).
  pose proof (map_nth (fun k => L / inject_Z (k + 1)) (range0 m) 0%Z k) as E.
  cbv beta in E. rewrite E, range0_nth by exact Hk. reflexivity.
Qed.

(** C2: for [max_number_rebelays >= 1] the loop of [optimum_rebelay] visits
    the rebelay counts [0 .. max_number_rebelays - 1] in order.  When it
    completes, the two lists have [max_number_rebelays] entries each, entry
    [k] being [rope_length / (k + 1)] and the value of
    [ascent_time(rope_length, n_cavers, k, ascent_speed, transition_time)],
    and these two lists are what the interpolation receives.  It completes
    whenever [n_cavers] is valid and the speed non-zero, and otherwise stops
    with the exception [ascent_time] raised at one of those counts. *)
Theorem sweep_collects (interp : interpolator) (L : Q) (n : value) (s t : Q)
    (m : Z) :
  (1 <= m)%Z ->
  (forall ts ls, rebelay_sweep L n s t m = Ok (ts, ls) ->
     Z.of_nat (List.length ls) = m /\ Z.of_nat (List.length ts) = m /\
     (forall k, (Z.of_nat k < m)%Z ->
        nth k ls 0 = L / inject_Z (Z.of_nat k + 1) /\
        ascent_time L n (Z.of_nat k) s t = Ok (nth k ts 0)) /\
     optimum_rebelay interp L n s t m =
       let* f := interp ls ts in dense_minimum f ls) /\
  (forall e, rebelay_sweep L n s t m = Raise e ->
     optimum_rebelay interp L n s t m = Raise e /\
     exists k, (0 <= k < m)%Z /\ ascent_time L n k s t = Raise e) /\
  (integer_at_least_1 n -> ~ s == 0 ->
     exists ts ls, rebelay_sweep L n s t m = Ok (ts, ls)).
Proof.
  intros Hm. split; [|split].
  - intros ts ls E.
    assert (Eopt : optimum_rebelay interp L n s t m =
                   let* f := interp ls ts in dense_minimum f ls)
      by (unfold optimum_rebelay; rewrite E; reflexivity).
    rewrite rebelay_sweep_spec in E.
    destruct (collect_times _ (range0 m)) as [ts'|e] eqn:Ec; [|discriminate].
    simpl in E. injection E as <- <-.
    destruct (collect_times_Ok _ _ _ Ec) as [Hlen Hnth].
    rewrite range0_length in Hlen, Hnth.
    split; [rewrite sample_lengths_length, range0_length; lia|].
    split; [lia|]. split; [|exact Eopt].
    intros k Hk. assert (Hk' : (k < Z.to_nat m)%nat) by lia.
    split; [apply sample_lengths_nth; exact Hk'|].
    specialize (Hnth k Hk'). rewrite range0_nth in Hnth by exact Hk'.
    exact Hnth.
  - intros e E. split; [unfold optimum_rebelay; rewrite E; reflexivity|].
    rewrite rebelay_sweep_spec in E.
    destruct (collect_times _ (range0 m)) as [ts'|e'] eqn:Ec; [discriminate|].
    simpl in E. injection E as ->.
    destruct (collect_times_Raise _ _ _ Ec) as (k & Hk & Ek).
    exists k. split; [apply range0_In; exact Hk | exact Ek].
  - intros (z & Hv & Hz) Hs. eexists. eexists.
    apply (rebelay_sweep_valid L n z s t m Hv Hz Hs).
Qed.

Lemma sample_lengths_decreasing (L : Q) (m : Z) :
  0 < L -> strictly_decreasing (sample_lengths L (range0 m)).
Proof.
  intros HL i j Hij Hj.
  rewrite sample_lengths_length, range0_length in Hj.
  rewrite !sample_lengths_nth by lia.
  assert (HA : 0 < inject_Z (Z.of_nat i + 1)).
  { replace 0 with (inject_Z 0) by reflexivity. rewrite <- Zlt_Qlt. lia. }
  assert (HAB : inject_Z (Z.of_nat i + 1) < inject_Z (Z.of_nat j + 1)).
  { rewrite <- Zlt_Qlt. lia. }
  unfold Qdiv. apply Qmult_lt_l; [exact HL|].
  apply -> Qinv_lt_contravar; [exact HAB | lra | exact HA].
Qed.

(** At [Q] the loop in the arithmetic of [F] is [rebelay_sweep]. *)
Lemma rebelay_sweep_num_exact (L : Q) (n : value) (s t : Q) (m : Z) :
  rebelay_sweep_num L n s t m = rebelay_sweep L n s t m.
Proof. reflexivity. Qed.

(** C8 (exact arithmetic): for [rope_length > 0] the loop of
    [optimum_rebelay] collects one abscissa per rebelay count, the one for
    count [k] being [rope_length / (k + 1)]; they are strictly decreasing
    along the sweep, and the interpolation is called on that list as
    collected: the code sorts nothing.  The loop completes whenever
    [n_cavers] is valid and the speed non-zero. *)
Theorem lengths_strictly_decreasing (interp : interpolator) (L : Q)
    (n : value) (s t : Q) (m : Z) :
  0 < L ->
  (forall ts ls, rebelay_sweep L n s t m = Ok (ts, ls) ->
     List.length ls = Z.to_nat m /\
     (forall k, (k < Z.to_nat m)%nat ->
        rebelay_length L (Z.of_nat k) = Ok (nth k ls 0) /\
        nth k ls 0 = L / inject_Z (Z.of_nat k + 1)) /\
     strictly_decreasing ls /\
     optimum_rebelay interp L n s t m =
       let* f := interp ls ts in dense_minimum f ls) /\
  (integer_at_least_1 n -> ~ s == 0 ->
     exists ts ls, rebelay_sweep L n s t m = Ok (ts, ls)).
Proof.
  intros HL. split.
  - intros ts ls E.
    assert (Eopt : optimum_rebelay interp L n s t m =
                   let* f := interp ls ts in dense_minimum f ls)
      by (unfold optimum_rebelay; rewrite E; reflexivity).
    rewrite rebelay_sweep_spec in E.
    destruct (collect_times _ (range0 m)) as [ts'|e]; [|discriminate].
    simpl in E. injection E as <- <-.
    split; [rewrite sample_lengths_length, range0_length; reflexivity|].
    split; [|split; [apply sample_lengths_decreasing; exact HL | exact Eopt]].
    intros k Hk. rewrite (sample_lengths_nth L m k Hk).
    split; [|reflexivity].
    unfold rebelay_length. apply truediv_Q_ok. apply inject_Z_nonzero. lia.
  - intros (z & Hv & Hz) Hs. eexists. eexists.
    apply (rebelay_sweep_valid L n z s t m Hv Hz Hs).
Qed.

(** C8 (binary64): on floats the quotients can coincide.  For the smallest
    positive float as rope length the sweep over three rebelay counts
    completes and collects that float, 0 and 0: the length for two rebelays
    is not below the length for one. *)
Lemma lengths_can_coincide_in_binary64 :
  exists ts : list float,
    PrimFloat.ltb 0 0x1p-1074 = true /\
    rebelay_sweep_num 0x1p-1074%float (PyInt 4) 7%float 2%float 3
      = Ok (ts, [0x1p-1074; 0; 0]%float) /\
    rebelay_length 0x1p-1074%float 1 = Ok 0%float /\
    rebelay_length 0x1p-1074%float 2 = Ok 0%float /\
    PrimFloat.ltb 0 0 = false.
Proof.
  eexists. split; [vm_compute; reflexivity|].
  split; [vm_compute; reflexivity|].
  repeat split; vm_compute; reflexivity.
Qed.

(** * The empty sweep *)

Lemma both_ways_sweep_empty (L : Q) (n : value) (s s' t : Q) (m : Z) :
  (m <= 0)%Z -> both_ways_sweep L n s s' t m = Ok ([], []).
Proof. intros Hm. unfold both_ways_sweep. rewrite range0_empty by exact Hm. reflexivity. Qed.

Lemma rebelay_sweep_empty (L : Q) (n : value) (s t : Q) (m : Z) :
  (m <= 0)%Z -> rebelay_sweep L n s t m = Ok ([], []).
Proof. intros Hm. unfold rebelay_sweep. rewrite range0_empty by exact Hm. reflexivity. Qed.

(** C4 (as the code has it): for [max_number_rebelays <= 0] the loop body
    never runs, so not even [n_cavers] is checked; both optimisers call the
    interpolation on two empty lists and return no value: the exception is
    the one the interpolation raises or, should it accept empty input, the
    [ValueError] of [min] on the empty list. *)
Theorem empty_sweep_reaches_interpolation (interp : interpolator) (L : Q)
    (n : value) (s s' t : Q) (m : Z) :
  (m <= 0)%Z ->
  rebelay_sweep L n s t m = Ok ([], []) /\
  optimum_rebelay interp L n s t m =
    (let* _ := interp [] [] in Raise (ValueError empty_min_message)) /\
  optimum_rebelay_both_ways interp L n s s' t m =
    (let* _ := interp [] [] in Raise (ValueError empty_min_message)) /\
  is_ok (optimum_rebelay interp L n s t m) = false /\
  is_ok (optimum_rebelay_both_ways interp L n s s' t m) = false.
Proof.
  intros Hm.
  assert (E1 : optimum_rebelay interp L n s t m =
               (let* _ := interp [] [] in Raise (ValueError empty_min_message))).
  { unfold optimum_rebelay. rewrite rebelay_sweep_empty by exact Hm. reflexivity. }
  assert (E2 : optimum_rebelay_both_ways interp L n s s' t m =
               (let* _ := interp [] [] in Raise (ValueError empty_min_message))).
  { unfold optimum_rebelay_both_ways. rewrite both_ways_sweep_empty by exact Hm.
    reflexivity. }
  split; [apply rebelay_sweep_empty; exact Hm|].
  split; [exact E1|]. split; [exact E2|].
  rewrite E1, E2. destruct (interp [] []); split; reflexivity.
Qed.

Lemma empty_sweep_reaches_interpolation_witness :
  (0 <= 0)%Z /\
  optimum_rebelay interp1d_linear 100 (PyInt 4) 7 2 0 =
    (let* _ := interp1d_linear [] [] in Raise (ValueError empty_min_message)) /\
  is_ok (optimum_rebelay interp1d_linear 100 (PyInt 4) 7 2 0) = false.
Proof.
  split; [lia|].
  destruct (empty_sweep_reaches_interpolation interp1d_linear 100 (PyInt 4)
              7 70 2 0 ltac:(lia)) as (_ & E & _ & Hf & _).
  split; [exact E | exact Hf].
Defined.

(** C4 (as claimed) fails at [max_number_rebelays = 0]: what the caller
    sees is the complaint of the interpolation routine about its input, of
    whatever kind that is, or the one of [min] when the routine accepts
    empty lists; an invalid [n_cavers] goes unnoticed. *)
Lemma empty_sweep_error_comes_from_interpolation :
  optimum_rebelay interp1d_linear 100 (PyInt 4) 7 2 0
    = Raise (ValueError too_few_message) /\
  optimum_rebelay (fun _ _ => Raise (IndexError "index 0 is out of bounds"))
      100 (PyInt 4) 7 2 0
    = Raise (IndexError "index 0 is out of bounds") /\
  optimum_rebelay (fun _ _ => Ok (fun _ => 0)) 100 (PyInt 4) 7 2 0
    = Raise (ValueError empty_min_message) /\
  optimum_rebelay interp1d_linear 100 (PyInt 0) 7 2 0
    = Raise (ValueError too_few_message) /\
  ascent_time 100 (PyInt 0) 0 7 2 = Raise (ValueError n_cavers_message).
Proof. repeat split; reflexivity. Qed.

(** * Equal speeds both ways *)








(** The reference routine commutes with doubling. *)







(** * The range of the optimum *)

Lemma convex_between (a b lo hi i N : Q) :
  between a b lo -> between a b hi -> 0 <= i -> i <= N -> 0 < N ->
  between a b (lo + i * ((hi - lo) / N)).
Proof.
  intros [Hlo1 Hlo2] [Hhi1 Hhi2] Hi HiN HN.
  assert (E : lo + i * ((hi - lo) / N) == ((N - i) * lo + i * hi) / N)
    by (field; lra).
  unfold between. rewrite E. split.
  - apply Qle_shift_div_l; [exact HN|]. nra.
  - apply Qle_shift_div_r; [exact HN|]. nra.
Qed.

Lemma round_half_even_nonneg (q : Q) : 0 <= q -> (0 <= round_half_even q)%Z.
Proof.
  intros Hq. unfold round_half_even.
  assert (Hf : (0 <= Qfloor q)%Z).
  { change 0%Z with (Qfloor 0). apply Qfloor_resp_le. exact Hq. }
  destruct (Qcompare _ _); [destruct (Z.even _)|..]; lia.
Qed.

Lemma round_half_even_upper (q : Q) : inject_Z (round_half_even q) <= q + (1 # 2).
Proof.
  unfold round_half_even.
  pose proof (Qfloor_le q) as Hf.
  destruct (Qcompare (q - inject_Z (Qfloor q)) (1 # 2)) eqn:E.
  - apply Qeq_alt in E.
    destruct (Z.even _); [lra|]. rewrite inject_Z_plus. change (inject_Z 1) with 1. lra.
  - lra.
  - apply Qgt_alt in E. rewrite inject_Z_plus. change (inject_Z 1) with 1. lra.
Qed.

Lemma round1_nonneg (x : Q) : 0 <= x -> 0 <= round1 x.
Proof.
  intros Hx. unfold round1.
  apply Qle_shift_div_l; [reflexivity|].
  assert (H : (0 <= round_half_even (x * 10))%Z)
    by (apply round_half_even_nonneg; lra).
  rewrite Zle_Qle in H. change (inject_Z 0) with 0 in H. lra.
Qed.

Lemma round1_upper (x : Q) : round1 x <= x + (1 # 20).
Proof.
  unfold round1. apply Qle_shift_div_r; [reflexivity|].
  pose proof (round_half_even_upper (x * 10)). lra.
Qed.

Lemma fold_left_pick (P : Q -> Prop) (pick : Q -> Q -> Q) (rest : list Q) (x : Q) :
  (forall m y, P m -> P y -> P (pick m y)) ->
  P x -> Forall P rest -> P (fold_left pick rest x).
Proof.
  intros Hpick. revert x. induction rest as [|y rest IH]; intros x Hx Hall.
  - exact Hx.
  - simpl. inversion Hall; subst. apply IH; auto.
Qed.

Lemma py_min_between (a b : Q) (x : Q) (rest : list Q) :
  Forall (between a b) (x :: rest) ->
  exists lo, py_min (x :: rest) = Ok lo /\ between a b lo.
Proof.
  intros Hall. inversion Hall; subst. eexists. split; [reflexivity|].
  apply fold_left_pick; auto.
  intros m y Hm Hy. destruct (Qltb y m); assumption.
Qed.

Lemma py_max_between (a b : Q) (x : Q) (rest : list Q) :
  Forall (between a b) (x :: rest) ->
  exists hi, py_max (x :: rest) = Ok hi /\ between a b hi.
Proof.
  intros Hall. inversion Hall; subst. eexists. split; [reflexivity|].
  apply fold_left_pick; auto.
  intros m y Hm Hy. destruct (Qltb m y); assumption.
Qed.

Lemma linspace_between (a b lo hi : Q) (num : Z) :
  between a b lo -> between a b hi ->
  Forall (between a b) (linspace lo hi num).
Proof.
  intros Hlo Hhi. unfold linspace.
  destruct (Z.leb_spec num 0) as [_|Hnum]; [constructor|].
  destruct (Z.eqb_spec num 1) as [_|Hne]; [constructor; [exact Hlo | constructor]|].
  apply Forall_app. split; [|constructor; [exact Hhi | constructor]].
  apply Forall_forall. intros x Hx. apply in_map_iff in Hx.
  destruct Hx as (i & <- & Hi). apply range0_In in Hi.
  apply convex_between; try assumption.
  - change 0 with (inject_Z 0). rewrite <- Zle_Qle. lia.
  - rewrite <- Zle_Qle. lia.
  - change 0 with (inject_Z 0). rewrite <- Zlt_Qlt. lia.
Qed.

Lemma linspace_nonempty (lo hi : Q) (num : Z) :
  (1 <= num)%Z -> linspace lo hi num <> [].
Proof.
  intros Hnum. unfold linspace.
  destruct (Z.leb_spec num 0) as [|_]; [lia|].
  destruct (Z.eqb_spec num 1) as [_|_]; [discriminate|].
  intros E. apply app_eq_nil in E. destruct E as [_ E]. discriminate.
Qed.

Lemma argmin_from_bound (ys : list Q) :
  forall i b bi, (bi < i)%nat -> (argmin_from ys i b bi < i + List.length ys)%nat.
Proof.
  induction ys as [|y rest IH]; intros i b bi Hbi; simpl; [lia|].
  destruct (Qltb y b).
  - specialize (IH (S i) y i). lia.
  - specialize (IH (S i) b bi). lia.
Qed.

Lemma argmin_bound (ys : list Q) :
  ys <> [] -> exists i, argmin ys = Ok i /\ (i < List.length ys)%nat.
Proof.
  destruct ys as [|y rest]; [congruence|]. intros _.
  eexists. split; [reflexivity|]. simpl.
  pose proof (argmin_from_bound rest 1 y 0). lia.
Qed.

Lemma dense_minimum_between (f : Q -> Q) (ls : list Q) (a b : Q) :
  ls <> [] -> Forall (between a b) ls ->
  exists x, dense_minimum f ls = Ok (round1 x) /\ between a b x.
Proof.
  intros Hne Hall. destruct ls as [|x0 rest]; [congruence|].
  destruct (py_min_between a b x0 rest Hall) as (lo & Elo & Hlo).
  destruct (py_max_between a b x0 rest Hall) as (hi & Ehi & Hhi).
  unfold dense_minimum. rewrite Elo, Ehi. cbv beta iota delta [bind].
  pose proof (linspace_between a b lo hi 1000 Hlo Hhi) as Hgrid.
  pose proof (linspace_nonempty lo hi 1000 ltac:(lia)) as Hgne.
  set (x_new := linspace lo hi 1000) in *.
  destruct (argmin_bound (map f x_new)) as (i & Ei & Hi).
  { intros E. apply map_eq_nil in E. contradiction. }
  rewrite Ei. rewrite length_map in Hi.
  exists (nth i x_new 0). split; [reflexivity|].
  rewrite Forall_forall in Hgrid. apply Hgrid. apply nth_In. exact Hi.
Qed.

Lemma sample_lengths_between (L : Q) (m : Z) :
  0 < L -> (1 <= m)%Z ->
  Forall (between (L / inject_Z m) L) (sample_lengths L (range0 m)).
Proof.
  intros HL Hm. apply Forall_forall. intros x Hx.
  unfold sample_lengths in Hx. apply in_map_iff in Hx.
  destruct Hx as (k & <- & Hk). apply range0_In in Hk.
  assert (H1 : 1 <= inject_Z (k + 1)).
  { change 1 with (inject_Z 1). rewrite <- Zle_Qle. lia. }
  assert (H2 : inject_Z (k + 1) <= inject_Z m) by (rewrite <- Zle_Qle; lia).
  split.
  - apply Qle_shift_div_l; [lra|].
    assert (E : L / inject_Z m * inject_Z (k + 1) ==
                (L * inject_Z (k + 1)) / inject_Z m) by (field; lra).
    rewrite E. apply Qle_shift_div_r; [lra|]. nra.
  - apply Qle_shift_div_r; [lra|]. nra.
Qed.

(** C5 (as the code has it): for [rope_length > 0], an integer
    [n_cavers >= 1], a speed [> 0], a transition time [>= 0] and the default
    100 rebelay counts, when the interpolation returns an interpolant on the
    samples, [optimum_rebelay] returns a value: a point [x] of the interval
    from [rope_length / 100] to [rope_length], rounded to one decimal.  The
    value is therefore at least 0 and at most [rope_length + 0.05]. *)
Theorem optimum_within_rounded_range (interp : interpolator) (L : Q)
    (n : value) (s t : Q) :
  0 < L -> integer_at_least_1 n -> 0 < s -> 0 <= t ->
  accepts_sweep interp L n s t default_max_number_rebelays ->
  exists v x,
    optimum_rebelay interp L n s t default_max_number_rebelays = Ok v /\
    v = round1 x /\ L / 100 <= x /\ x <= L /\
    0 <= v /\ v <= L + (1 # 20).
Proof.
  intros HL (z & Hv & Hz) Hs Ht Hacc.
  assert (Hs' : ~ s == 0) by lra.
  pose proof (rebelay_sweep_valid L n z s t default_max_number_rebelays Hv Hz Hs')
    as Esw.
  destruct (Hacc _ _ Esw) as [f Ef].
  unfold optimum_rebelay. rewrite Esw. cbv beta iota delta [bind].
  rewrite Ef.
  destruct (dense_minimum_between f
              (sample_lengths L (range0 default_max_number_rebelays))
              (L / inject_Z default_max_number_rebelays) L)
    as (x & Ex & Hx1 & Hx2).
  - intros E. apply (f_equal (@List.length Q)) in E.
    rewrite sample_lengths_length, range0_length in E. discriminate.
  - apply sample_lengths_between; [exact HL | discriminate].
  - exists (round1 x), x. split; [exact Ex|]. split; [reflexivity|].
    change (inject_Z default_max_number_rebelays) with 100 in Hx1.
    split; [exact Hx1|]. split; [exact Hx2|].
    assert (0 < L / 100) by (apply Qlt_shift_div_l; lra).
    split; [apply round1_nonneg; lra|].
    pose proof (round1_upper x). lra.
Qed.

(** The reference routine returns an interpolant on any sweep of at least
    four rebelay counts. *)
Lemma interp1d_linear_accepts_sweep (L : Q) (n : value) (s t : Q) (m : Z) :
  (4 <= m)%Z -> accepts_sweep interp1d_linear L n s t m.
Proof.
  intros Hm ts ls E. rewrite rebelay_sweep_spec in E.
  destruct (collect_times _ (range0 m)) as [ts'|e] eqn:Ec; [|discriminate].
  simpl in E. injection E as <- <-.
  destruct (collect_times_Ok _ _ _ Ec) as [Hlen _].
  rewrite range0_length in Hlen.
  unfold interp1d_linear.
  rewrite sample_lengths_length, range0_length, Hlen.
  rewrite Nat.eqb_refl. simpl negb. cbv iota.
  destruct (Nat.ltb_spec (Z.to_nat m) 4); [lia|].
  eexists. reflexivity.
Qed.

Lemma optimum_within_rounded_range_witness :
  0 < 100 /\ integer_at_least_1 (PyInt 4) /\ 0 < 7 /\ 0 <= 2 /\
  exists v x,
    optimum_rebelay interp1d_linear 100 (PyInt 4) 7 2
      default_max_number_rebelays = Ok v /\
    v = round1 x /\ 100 / 100 <= x /\ x <= 100 /\
    0 <= v /\ v <= 100 + (1 # 20).
Proof.
  assert (Hv : integer_at_least_1 (PyInt 4))
    by (exists 4%Z; split; [reflexivity | lia]).
  split; [reflexivity|]. split; [exact Hv|].
  split; [reflexivity|]. split; [discriminate|].
  apply (optimum_within_rounded_range interp1d_linear 100 (PyInt 4) 7 2);
    [reflexivity | exact Hv | reflexivity | discriminate |].
  apply interp1d_linear_accepts_sweep. unfold default_max_number_rebelays. lia.
Defined.

(** Rounding to one decimal sends everything below 0.05 to 0. *)
Lemma round1_small (x : Q) : 0 <= x -> x < (1 # 20) -> round1 x == 0.
Proof.
  intros H0 H1. unfold round1, round_half_even.
  assert (Hf : Qfloor (x * 10) = 0%Z).
  { pose proof (Qfloor_le (x * 10)) as Hle.
    pose proof (Qlt_floor (x * 10)) as Hlt.
    assert (Ha : inject_Z (Qfloor (x * 10)) < inject_Z 1)
      by (change (inject_Z 1) with 1; lra).
    assert (Hb : inject_Z 0 < inject_Z (Qfloor (x * 10) + 1)).
    { change (inject_Z 0) with 0. lra. }
    rewrite <- Zlt_Qlt in Ha, Hb. lia. }
  rewrite Hf.
  assert (Hc : Qcompare (x * 10 - inject_Z 0) (1 # 2) = Lt).
  { apply (proj1 (Qlt_alt _ _)). change (inject_Z 0) with 0. lra. }
  rewrite Hc. reflexivity.
Qed.

(** On a rope shorter than 5 cm every candidate rounds to 0, whatever the
    interpolation does. *)
Lemma short_rope_optimum_is_zero (interp : interpolator) (L : Q) (n : value)
    (s t : Q) (m : Z) (v : Q) :
  0 < L -> L < (1 # 20) -> (1 <= m)%Z ->
  optimum_rebelay interp L n s t m = Ok v -> v == 0.
Proof.
  intros HL Hshort Hm E. unfold optimum_rebelay in E.
  rewrite rebelay_sweep_spec in E.
  destruct (collect_times _ (range0 m)) as [ts|e]; [|discriminate].
  simpl in E. destruct (interp _ ts) as [f|e]; [|discriminate]. simpl in E.
  destruct (dense_minimum_between f (sample_lengths L (range0 m))
              (L / inject_Z m) L) as (x & Ex & Hx1 & Hx2).
  - intros E'. apply (f_equal (@List.length Q)) in E'.
    rewrite sample_lengths_length, range0_length in E'. simpl in E'. lia.
  - apply sample_lengths_between; assumption.
  - rewrite Ex in E. injection E as <-.
    assert (0 < L / inject_Z m).
    { apply Qlt_shift_div_l; [|lra].
      change 0 with (inject_Z 0). rewrite <- Zlt_Qlt. lia. }
    apply round1_small; lra.
Qed.

(** C5 (as claimed) fails at both ends.  On a rope of 1 cm the optimiser
    returns 0, which is not greater than 0: this is the rounding, and holds
    for every interpolation ([short_rope_optimum_is_zero]).  For a single
    caver on a rope of 100 m, with the reference interpolation, it returns
    the rope length itself: the minimum is at the sample without rebelays. *)
Lemma optimum_reaches_both_ends :
  (exists v, optimum_rebelay interp1d_linear (1 # 100) (PyInt 4) 7 2
               default_max_number_rebelays = Ok v /\ v == 0) /\
  (exists v, optimum_rebelay interp1d_linear 100 (PyInt 1) 7 2
               default_max_number_rebelays = Ok v /\ v == 100).
Proof.
  split; eexists; (split; [vm_compute; reflexivity | reflexivity]).
Qed.

Lemma sweep_collects_witness :
  (1 <= 100)%Z /\
  exists ts ls,
    rebelay_sweep 100 (PyInt 4) 7 2 100 = Ok (ts, ls) /\
    Z.of_nat (List.length ls) = 100%Z /\ Z.of_nat (List.length ts) = 100%Z /\
    nth 3 ls 0 = 100 / inject_Z (Z.of_nat 3 + 1) /\
    ascent_time 100 (PyInt 4) (Z.of_nat 3) 7 2 = Ok (nth 3 ts 0).
Proof.
  split; [lia|].
  destruct (sweep_collects interp1d_linear 100 (PyInt 4) 7 2 100 ltac:(lia))
    as (Hok & _ & Hex).
  destruct Hex as (ts & ls & E).
  - exists 4%Z. split; [reflexivity | lia].
  - discriminate.
  - exists ts, ls. destruct (Hok ts ls E) as (H1 & H2 & H3 & _).
    split; [exact E|]. split; [exact H1|]. split; [exact H2|].
    apply (H3 3%nat). lia.
Defined.

Lemma lengths_strictly_decreasing_witness :
  0 < 100 /\
  exists ts ls,
    rebelay_sweep 100 (PyInt 4) 7 2 100 = Ok (ts, ls) /\
    List.length ls = Z.to_nat 100 /\
    nth 3 ls 0 = 100 / inject_Z (Z.of_nat 3 + 1) /\
    strictly_decreasing ls.
Proof.
  split; [reflexivity|].
  destruct (lengths_strictly_decreasing interp1d_linear 100 (PyInt 4) 7 2 100
              eq_refl) as (Hdec & Hex).
  destruct Hex as (ts & ls & E).
  - exists 4%Z. split; [reflexivity | lia].
  - discriminate.
  - exists ts, ls. destruct (Hdec ts ls E) as (H1 & H2 & H3 & _).
    split; [exact E|]. split; [exact H1|].
    split; [apply (H2 3%nat); simpl; lia | exact H3].
Defined.

(** * Further properties of the timing model *)

Lemma inject_Z_pos (z : Z) : (0 < z)%Z -> 0 < inject_Z z.
Proof. intros Hz. change 0 with (inject_Z 0). rewrite <- Zlt_Qlt. exact Hz. Qed.

(** The value in closed form: one section time, [n_rebelays + n_cavers]
    times. *)
Lemma ascent_value_closed_form (L : Q) (n r : Z) (s t : Q) :
  (0 <= r)%Z -> ~ s == 0 ->
  ascent_value L n r s t ==
  (L / (inject_Z (r + 1) * s) + t) * inject_Z (r + n).
Proof.
  intros Hr Hs. unfold ascent_value.
  assert (Hr1 : ~ inject_Z (r + 1) == 0) by (apply inject_Z_nonzero; lia).
  replace (inject_Z (r + n)) with (inject_Z ((r + 1) + (n - 1)))
    by (f_equal; lia).
  rewrite (inject_Z_plus (r + 1) (n - 1)).
  destruct (Z.ltb_spec 0 r) as [Hpos|Hzero]; cbv zeta.
  - field. split; assumption.
  - assert (r = 0%Z) by lia. subst r. change (inject_Z (0 + 1)) with 1.
    field. exact Hs.
Qed.

(** X1: for [n_rebelays >= 0], a valid [n_cavers] and a non-zero speed,
    [ascent_time] returns [(L / ((r + 1) * s) + t) * (r + n)]: the time of
    one section, once per section for the leader and once more for every
    other caver. *)
Theorem ascent_time_closed_form (L : Q) (v : value) (n r : Z) (s t : Q) :
  isinstance_int v = Some n -> (1 <= n)%Z -> (0 <= r)%Z -> ~ s == 0 ->
  exists x, ascent_time L v r s t = Ok x /\
            x == (L / (inject_Z (r + 1) * s) + t) * inject_Z (r + n).
Proof.
  intros Hv Hn Hr Hs. exists (ascent_value L n r s t).
  split; [apply ascent_time_ok; assumption|].
  apply ascent_value_closed_form; assumption.
Qed.

Lemma ascent_time_closed_form_witness :
  exists x, ascent_time 100 (PyInt 4) 3 7 2 = Ok x /\
            x == (100 / (inject_Z (3 + 1) * 7) + 2) * inject_Z (3 + 4).
Proof.
  apply (ascent_time_closed_form 100 (PyInt 4) 4 3 7 2);
    [reflexivity | lia | lia | discriminate].
Defined.

(** X2: in exact arithmetic, one more caver costs exactly one section time,
    whatever the number of rebelays. *)
Theorem one_more_caver (L : Q) (n r : Z) (s t : Q) :
  (1 <= n)%Z -> ~ s == 0 ->
  exists sl st x x',
    section_length L r = Ok sl /\
    section_time sl s t = Ok st /\
    ascent_time L (PyInt n) r s t = Ok x /\
    ascent_time L (PyInt (n + 1)) r s t = Ok x' /\
    x' == x + st.
Proof.
  intros Hn Hs.
  exists (if (0 <? r)%Z then L / inject_Z (r + 1) else L).
  exists ((if (0 <? r)%Z then L / inject_Z (r + 1) else L) / s + t).
  exists (ascent_value L n r s t), (ascent_value L (n + 1) r s t).
  split; [apply section_length_ok|].
  split; [unfold section_time; rewrite truediv_Q_ok by exact Hs; reflexivity|].
  split; [apply ascent_time_ok; [reflexivity | lia | exact Hs]|].
  split; [apply ascent_time_ok; [reflexivity | lia | exact Hs]|].
  unfold ascent_value. cbv zeta.
  replace (n + 1 - 1)%Z with ((n - 1) + 1)%Z by lia.
  rewrite (inject_Z_plus (n - 1) 1). change (inject_Z 1) with 1. ring.
Qed.

Lemma one_more_caver_witness :
  exists sl st x x',
    section_length 100 3 = Ok sl /\
    section_time sl 7 2 = Ok st /\
    ascent_time 100 (PyInt 4) 3 7 2 = Ok x /\
    ascent_time 100 (PyInt (4 + 1)) 3 7 2 = Ok x' /\
    x' == x + st.
Proof. apply (one_more_caver 100 4 3 7 2); [lia | discriminate]. Defined.

(** X3: [n_rebelays] is not validated.  For [n_rebelays <= 0] the rope is
    not split but the leader is still charged [n_rebelays + 1] sections, so
    in exact arithmetic the result is
    [(L / s + t) * (n_rebelays + n_cavers)]: zero for
    [n_rebelays = - n_cavers], negative below. *)
Theorem nonpositive_rebelays_not_split (L : Q) (v : value) (n r : Z) (s t : Q) :
  isinstance_int v = Some n -> (1 <= n)%Z -> (r <= 0)%Z -> ~ s == 0 ->
  exists x, ascent_time L v r s t = Ok x /\
            x == (L / s + t) * inject_Z (r + n) /\
            (r = (- n)%Z -> x == 0) /\
            ((r < - n)%Z -> 0 < L / s + t -> x < 0).
Proof.
  intros Hv Hn Hr Hs. exists (ascent_value L n r s t).
  split; [apply ascent_time_ok; assumption|].
  assert (E : ascent_value L n r s t == (L / s + t) * inject_Z (r + n)).
  { unfold ascent_value. destruct (Z.ltb_spec 0 r) as [Hpos|_]; [lia|]. cbv zeta.
    replace (inject_Z (r + n)) with (inject_Z ((r + 1) + (n - 1)))
      by (f_equal; lia).
    rewrite (inject_Z_plus (r + 1) (n - 1)). ring. }
  split; [exact E|]. split.
  - intros ->. rewrite E. replace (- n + n)%Z with 0%Z by lia.
    change (inject_Z 0) with 0. ring.
  - intros Hlt Hpos. rewrite E.
    assert (Hneg : inject_Z (r + n) < 0).
    { change 0 with (inject_Z 0). rewrite <- Zlt_Qlt. lia. }
    nra.
Qed.

Lemma nonpositive_rebelays_not_split_witness :
  exists x, ascent_time 100 (PyInt 4) (-5) 7 2 = Ok x /\
            x == (100 / 7 + 2) * inject_Z (-5 + 4) /\
            ((-5)%Z = (- 4)%Z -> x == 0) /\
            ((-5 < - 4)%Z -> 0 < 100 / 7 + 2 -> x < 0).
Proof.
  apply (nonpositive_rebelays_not_split 100 (PyInt 4) 4 (-5) 7 2);
    [reflexivity | lia | lia | discriminate].
Defined.

(** X4: what one more rebelay changes, in exact arithmetic.  Going from [r]
    to [r + 1] rebelays adds one transition time and removes
    [L * (n - 1) / (s * (r + 1) * (r + 2))]; it shortens the total time
    exactly when [t * s * (r + 1) * (r + 2) < L * (n - 1)]. *)
Theorem one_more_rebelay (L : Q) (n r : Z) (s t : Q) :
  (1 <= n)%Z -> (0 <= r)%Z -> 0 < s ->
  exists x x',
    ascent_time L (PyInt n) r s t = Ok x /\
    ascent_time L (PyInt n) (r + 1) s t = Ok x' /\
    x' - x == t - L * inject_Z (n - 1) / (s * inject_Z ((r + 1) * (r + 2))) /\
    (x' < x <-> t * s * inject_Z ((r + 1) * (r + 2)) < L * inject_Z (n - 1)).
Proof.
  intros Hn Hr Hs.
  assert (Hs' : ~ s == 0) by lra.
  exists (ascent_value L n r s t), (ascent_value L n (r + 1) s t).
  split; [apply ascent_time_ok; [reflexivity | exact Hn | exact Hs']|].
  split; [apply ascent_time_ok; [reflexivity | exact Hn | exact Hs']|].
  pose proof (ascent_value_closed_form L n r s t Hr Hs') as Hx.
  pose proof (ascent_value_closed_form L n (r + 1) s t ltac:(lia) Hs') as Hx'.
  set (x := ascent_value L n r s t) in *.
  set (x' := ascent_value L n (r + 1) s t) in *.
  pose proof (inject_Z_pos (r + 1) ltac:(lia)) as H1.
  pose proof (inject_Z_pos (r + 2) ltac:(lia)) as H2.
  assert (Ediff : x' - x ==
            t - L * inject_Z (n - 1) / (s * inject_Z ((r + 1) * (r + 2)))).
  { rewrite Hx, Hx'.
    replace (inject_Z (r + 1 + n)) with (inject_Z ((r + 1) + 1 + (n - 1)))
      by (f_equal; lia).
    replace (inject_Z (r + n)) with (inject_Z ((r + 1) + (n - 1)))
      by (f_equal; lia).
    replace (inject_Z ((r + 1) * (r + 2))) with
      (inject_Z ((r + 1) * ((r + 1) + 1))) by (f_equal; lia).
    rewrite inject_Z_mult.
    rewrite (inject_Z_plus (r + 1 + 1) (n - 1)), (inject_Z_plus (r + 1) (n - 1)).
    rewrite (inject_Z_plus (r + 1) 1). change (inject_Z 1) with 1.
    set (a := inject_Z (r + 1)) in *. set (c := inject_Z (n - 1)).
    field. repeat split; lra. }
  split; [exact Ediff|].
  assert (Hden : 0 < s * inject_Z ((r + 1) * (r + 2))).
  { rewrite inject_Z_mult. apply Qmult_lt_0_compat; [exact Hs|].
    apply Qmult_lt_0_compat; assumption. }
  set (D := s * inject_Z ((r + 1) * (r + 2))) in *.
  assert (Eq1 : t * s * inject_Z ((r + 1) * (r + 2)) == t * D)
    by (unfold D; ring).
  rewrite Eq1.
  split.
  - intros Hlt.
    assert (Ht : t < L * inject_Z (n - 1) / D) by lra.
    apply (Qmult_lt_r _ _ D Hden) in Ht.
    assert (Ec : L * inject_Z (n - 1) / D * D == L * inject_Z (n - 1))
      by (field; lra).
    lra.
  - intros Hlt.
    assert (Ht : t < L * inject_Z (n - 1) / D).
    { apply Qlt_shift_div_l; [exact Hden | exact Hlt]. }
    lra.
Qed.

Lemma one_more_rebelay_witness :
  exists x x',
    ascent_time 100 (PyInt 4) 3 7 2 = Ok x /\
    ascent_time 100 (PyInt 4) (3 + 1) 7 2 = Ok x' /\
    x' - x == 2 - 100 * inject_Z (4 - 1) / (7 * inject_Z ((3 + 1) * (3 + 2))) /\
    (x' < x <-> 2 * 7 * inject_Z ((3 + 1) * (3 + 2)) < 100 * inject_Z (4 - 1)).
Proof. apply (one_more_rebelay 100 4 3 7 2); [lia | lia | reflexivity]. Defined.

(** X5: in exact arithmetic a single caver gains nothing from rebelays:
    with [r] of them the time is the time without any plus [r] transition
    times. *)
Theorem single_caver_no_rebelay_is_best (L : Q) (r : Z) (s t : Q) :
  (0 <= r)%Z -> 0 < s -> 0 <= t ->
  exists x0 x,
    ascent_time L (PyInt 1) 0 s t = Ok x0 /\
    ascent_time L (PyInt 1) r s t = Ok x /\
    x == x0 + t * inject_Z r /\
    x0 <= x.
Proof.
  intros Hr Hs Ht.
  assert (Hs' : ~ s == 0) by lra.
  exists (ascent_value L 1 0 s t), (ascent_value L 1 r s t).
  split; [apply ascent_time_ok; [reflexivity | lia | exact Hs']|].
  split; [apply ascent_time_ok; [reflexivity | lia | exact Hs']|].
  pose proof (ascent_value_closed_form L 1 0 s t ltac:(lia) Hs') as Hx0.
  pose proof (ascent_value_closed_form L 1 r s t Hr Hs') as Hx.
  set (x0 := ascent_value L 1 0 s t) in *.
  set (x := ascent_value L 1 r s t) in *.
  pose proof (inject_Z_pos (r + 1) ltac:(lia)) as H1.
  assert (E : x == x0 + t * inject_Z r).
  { rewrite Hx, Hx0. change (inject_Z (0 + 1)) with 1.
    rewrite inject_Z_plus in *. change (inject_Z 1) with 1 in *.
    field. split; lra. }
  split; [exact E|].
  assert (0 <= inject_Z r) by (change 0 with (inject_Z 0); rewrite <- Zle_Qle; lia).
  assert (0 <= t * inject_Z r) by (apply Qmult_le_0_compat; assumption).
  lra.
Qed.

Lemma single_caver_no_rebelay_is_best_witness :
  exists x0 x,
    ascent_time 100 (PyInt 1) 0 7 2 = Ok x0 /\
    ascent_time 100 (PyInt 1) 3 7 2 = Ok x /\
    x == x0 + 2 * inject_Z 3 /\
    x0 <= x.
Proof.
  apply (single_caver_no_rebelay_is_best 100 3 7 2);
    [lia | reflexivity | discriminate].
Defined.

(** * Further properties of the optimisers *)

Lemma Qltb_true (a b : Q) : Qltb a b = true <-> a < b.
Proof.
  unfold Qltb. rewrite negb_true_iff. split.
  - intros E. apply Qnot_le_lt. intros Hle. apply Qle_bool_iff in Hle. congruence.
  - intros Hlt. destruct (Qle_bool b a) eqn:E; [|reflexivity].
    apply Qle_bool_iff in E. lra.
Qed.

Lemma Qltb_false (a b : Q) : Qltb a b = false <-> b <= a.
Proof. unfold Qltb. rewrite negb_false_iff. apply Qle_bool_iff. Qed.

(** [min] returns a lower bound of its list, [max] an upper bound. *)
Lemma fold_min_lower (rest : list Q) :
  forall x, let m := fold_left (fun m y => if Qltb y m then y else m) rest x in
            m <= x /\ Forall (fun y => m <= y) rest.
Proof.
  induction rest as [|y rest IH]; intros x; cbv zeta; simpl.
  - split; [lra | constructor].
  - destruct (IH (if Qltb y x then y else x)) as [H1 H2]. cbv zeta in H1, H2.
    destruct (Qltb y x) eqn:E.
    + apply Qltb_true in E. split; [lra|]. constructor; [lra | exact H2].
    + apply Qltb_false in E. split; [lra|]. constructor; [lra | exact H2].
Qed.







Lemma argmin_from_first_minimum (rest : list Q) :
  forall (pre : list Q) (b : Q) (bi : nat),
    (bi < List.length pre)%nat -> nth bi pre 0 = b ->
    (forall j, (j < List.length pre)%nat -> b <= nth j pre 0) ->
    (forall j, (j < bi)%nat -> b < nth j pre 0) ->
    first_minimum (pre ++ rest) (argmin_from rest (List.length pre) b bi).
Proof.
  induction rest as [|y rest IH]; intros pre b bi Hbi Hb Hle Hlt.
  - simpl. rewrite app_nil_r. unfold first_minimum. rewrite Hb.
    split; [exact Hbi|]. split; assumption.
  - simpl.
    assert (Elen : S (List.length pre) = List.length (pre ++ [y]))
      by (rewrite length_app; simpl; lia).
    assert (Eapp : pre ++ y :: rest = (pre ++ [y]) ++ rest)
      by (rewrite <- app_assoc; reflexivity).
    rewrite Elen, Eapp.
    destruct (Qltb y b) eqn:E.
    + apply Qltb_true in E. apply IH.
      * rewrite <- Elen. lia.
      * rewrite app_nth2 by lia. rewrite Nat.sub_diag. reflexivity.
      * intros j Hj. rewrite <- Elen in Hj.
        destruct (Nat.eq_dec j (List.length pre)) as [->|Hne].
        -- rewrite app_nth2 by lia. rewrite Nat.sub_diag. simpl. lra.
        -- rewrite app_nth1 by lia. specialize (Hle j ltac:(lia)). lra.
      * intros j Hj. rewrite app_nth1 by lia. specialize (Hle j Hj). lra.
    + apply Qltb_false in E. apply IH.
      * rewrite <- Elen. lia.
      * rewrite app_nth1 by lia. exact Hb.
      * intros j Hj. rewrite <- Elen in Hj.
        destruct (Nat.eq_dec j (List.length pre)) as [->|Hne].
        -- rewrite app_nth2 by lia. rewrite Nat.sub_diag. simpl. exact E.
        -- rewrite app_nth1 by lia. apply Hle. lia.
      * intros j Hj. rewrite app_nth1 by lia. apply Hlt. exact Hj.
Qed.

Lemma argmin_first_minimum (ys : list Q) :
  ys <> [] -> exists i, argmin ys = Ok i /\ first_minimum ys i.
Proof.
  destruct ys as [|y rest]; [congruence|]. intros _.
  eexists. split; [reflexivity|].
  apply (argmin_from_first_minimum rest [y] y 0%nat).
  - simpl. lia.
  - reflexivity.
  - intros [|j] Hj; simpl in *; [lra | lia].
  - intros j Hj. lia.
Qed.

(** On a non-empty list of lengths the dense search returns: the grid
    point where the interpolant is least, the first one if several. *)
Lemma dense_minimum_first_minimum (f : Q -> Q) (ls : list Q) :
  ls <> [] ->
  exists lo hi i,
    py_min ls = Ok lo /\ py_max ls = Ok hi /\
    first_minimum (map f (linspace lo hi 1000)) i /\
    dense_minimum f ls = Ok (round1 (nth i (linspace lo hi 1000) 0)).
Proof.
  intros Hne. destruct ls as [|x0 rest]; [congruence|].
  unfold dense_minimum.
  destruct (py_min (x0 :: rest)) as [lo|e] eqn:Elo; [|discriminate].
  destruct (py_max (x0 :: rest)) as [hi|e] eqn:Ehi; [|discriminate].
  cbv beta iota delta [bind].
  pose proof (linspace_nonempty lo hi 1000 ltac:(lia)) as Hgne.
  set (x_new := linspace lo hi 1000) in *.
  destruct (argmin_first_minimum (map f x_new)) as (i & Ei & Hi).
  { intros E. apply map_eq_nil in E. contradiction. }
  exists lo, hi, i. rewrite Ei.
  split; [reflexivity|]. split; [reflexivity|]. split; [exact Hi | reflexivity].
Qed.

Lemma rebelay_sweep_lengths (L : Q) (v : value) (s t : Q) (m : Z)
    (ts ls : list Q) :
  rebelay_sweep L v s t m = Ok (ts, ls) ->
  ls = sample_lengths L (range0 m) /\ List.length ts = Z.to_nat m /\
  List.length ls = Z.to_nat m.
Proof.
  intros E. rewrite rebelay_sweep_spec in E.
  destruct (collect_times _ (range0 m)) as [ts'|e] eqn:Ec; [|discriminate].
  simpl in E. injection E as <- <-.
  destruct (collect_times_Ok _ _ _ Ec) as [Hlen _].
  rewrite range0_length in Hlen.
  split; [reflexivity|]. split; [exact Hlen|].
  rewrite sample_lengths_length, range0_length. reflexivity.
Qed.

(** X7: what [optimum_rebelay] returns.  When the loop completes over at
    least one rebelay count and the interpolation returns [f], the result is
    the point of the 1000-point grid over [min .. max] of the lengths at
    which [f] is least, the first such point if there are several, rounded
    to one decimal. *)
Theorem optimum_is_first_grid_minimum (interp : interpolator) (L : Q)
    (v : value) (s t : Q) (m : Z) (ts ls : list Q) (f : Q -> Q) :
  (1 <= m)%Z ->
  rebelay_sweep L v s t m = Ok (ts, ls) -> interp ls ts = Ok f ->
  exists lo hi i,
    py_min ls = Ok lo /\ py_max ls = Ok hi /\
    first_minimum (map f (linspace lo hi 1000)) i /\
    optimum_rebelay interp L v s t m =
      Ok (round1 (nth i (linspace lo hi 1000) 0)).
Proof.
  intros Hm E Ef.
  destruct (rebelay_sweep_lengths L v s t m ts ls E) as (_ & _ & Hlen).
  destruct (dense_minimum_first_minimum f ls) as (lo & hi & i & H1 & H2 & H3 & H4).
  { intros ->. simpl in Hlen. lia. }
  exists lo, hi, i. split; [exact H1|]. split; [exact H2|]. split; [exact H3|].
  unfold optimum_rebelay. rewrite E. cbv beta iota delta [bind].
  rewrite Ef. exact H4.
Qed.

Lemma optimum_is_first_grid_minimum_witness :
  exists ts ls f lo hi i,
    rebelay_sweep 100 (PyInt 4) 7 2 100 = Ok (ts, ls) /\
    interp1d_linear ls ts = Ok f /\
    py_min ls = Ok lo /\ py_max ls = Ok hi /\
    first_minimum (map f (linspace lo hi 1000)) i /\
    optimum_rebelay interp1d_linear 100 (PyInt 4) 7 2 100 =
      Ok (round1 (nth i (linspace lo hi 1000) 0)).
Proof.
  pose proof (rebelay_sweep_valid 100 (PyInt 4) 4 7 2 100 eq_refl
                ltac:(lia) ltac:(discriminate)) as E.
  destruct (interp1d_linear_accepts_sweep 100 (PyInt 4) 7 2 100 ltac:(lia)
              _ _ E) as [f Ef].
  destruct (optimum_is_first_grid_minimum interp1d_linear 100 (PyInt 4) 7 2 100
              _ _ f ltac:(lia) E Ef) as (lo & hi & i & H).
  eexists. eexists. exists f, lo, hi, i.
  split; [exact E|]. split; [exact Ef | exact H].
Defined.


(** With a valid [n_cavers] the only exception of [ascent_time] is the
    division by a zero speed. *)
Lemma ascent_time_valid_exception (L : Q) (v : value) (r : Z) (s t : Q)
    (e : exn) :
  integer_at_least_1 v -> ascent_time L v r s t = Raise e ->
  e = ZeroDivisionError /\ s == 0.
Proof.
  intros Hv E. destruct (Qeq_dec s 0) as [Hs|Hs].
  - rewrite (ascent_time_zero_speed L v r s t Hv Hs) in E.
    injection E as <-. split; [reflexivity | exact Hs].
  - destruct Hv as (n & Hn & H1).
    rewrite (ascent_time_ok L v n r s t Hn H1 Hs) in E. discriminate.
Qed.






(** The loop of [optimum_rebelay_both_ways], from any state. *)
Lemma for_in_both_ways_collect (L : Q) (v : value) (a d t : Q) (rs : list Z) :
  Forall (fun k => (0 <= k)%Z) rs ->
  forall ts0 ls0,
    for_in rs (both_ways_body L v a d t) (ts0, ls0) =
    let* ts := collect_times
                 (fun k => let* up := ascent_time L v k a t in
                           let* down := ascent_time L v k d t in
                           Ok (up + down)) rs in
    Ok (ts0 ++ ts, ls0 ++ sample_lengths L rs).
Proof.
  induction 1 as [|k rest Hk _ IH]; intros ts0 ls0.
  - simpl. rewrite !app_nil_r. reflexivity.
  - simpl. rewrite truediv_Q_ok by (apply inject_Z_nonzero; lia). simpl.
    destruct (ascent_time L v k a t) as [x|e]; [|reflexivity]. simpl.
    destruct (ascent_time L v k d t) as [y|e]; [|reflexivity]. simpl.
    rewrite IH.
    destruct (collect_times _ rest) as [xs|e]; [|reflexivity]. simpl.
    rewrite <- !app_assoc. reflexivity.
Qed.

Lemma both_ways_sweep_spec (L : Q) (v : value) (a d t : Q) (m : Z) :
  both_ways_sweep L v a d t m =
  let* ts := collect_times
               (fun k => let* up := ascent_time L v k a t in
                         let* down := ascent_time L v k d t in
                         Ok (up + down)) (range0 m) in
  Ok (ts, sample_lengths L (range0 m)).
Proof.
  unfold both_ways_sweep. rewrite for_in_both_ways_collect by apply range0_nonneg.
  reflexivity.
Qed.









(** * Properties of the plotting functions *)

Lemma py_range_length (start stop : Z) :
  List.length (py_range start stop) = Z.to_nat (stop - start).
Proof. unfold py_range. rewrite length_map, length_seq. reflexivity. Qed.

Lemma py_range_nth (start stop : Z) (k : nat) :
  (k < Z.to_nat (stop - start))%nat ->
  nth k (py_range start stop) 0%Z = (start + Z.of_nat k)%Z.
Proof.
  intros Hk. unfold py_range.
  rewrite (nth_indep _ 0%Z (start + Z.of_nat 0)%Z)
    by (rewrite length_map, length_seq; exact Hk).
  pose proof (map_nth (fun i => (start + Z.of_nat i)%Z)
                (seq 0 (Z.to_nat (stop - start))) 0%nat k) as E.
  cbv beta in E. rewrite E, seq_nth by exact Hk. reflexivity.
Qed.

Lemma py_range_In (start stop n : Z) :
  In n (py_range start stop) -> (start <= n < stop)%Z.
Proof.
  unfold py_range. rewrite in_map_iff. intros (i & <- & Hi).
  apply in_seq in Hi. lia.
Qed.

Lemma py_range_empty (start stop : Z) :
  (stop <= start)%Z -> py_range start stop = [].
Proof.
  intros H. unfold py_range.
  replace (Z.to_nat (stop - start)) with 0%nat by lia. reflexivity.
Qed.

(** A loop of [plot_optimum_rebelay_length_both_ways], from any list. *)
Lemma for_in_series (optimum : value -> result Q) (rs : list Z) :
  forall acc,
    for_in rs
      (fun n_cavers optimum_rebelay_lengths =>
         let* optimum_rebelay_length := optimum (PyInt n_cavers) in
         Ok (optimum_rebelay_lengths ++ [optimum_rebelay_length])) acc =
    let* ys := collect_times (fun n => optimum (PyInt n)) rs in Ok (acc ++ ys).
Proof.
  induction rs as [|n rest IH]; intros acc.
  - simpl. rewrite app_nil_r. reflexivity.
  - simpl. destruct (optimum (PyInt n)) as [y|e]; [|reflexivity]. simpl.
    rewrite IH. destruct (collect_times _ rest) as [ys|e]; [|reflexivity].
    simpl. rewrite <- app_assoc. reflexivity.
Qed.

Lemma optimum_series_spec (optimum : value -> result Q) (rs : list Z) :
  optimum_series optimum rs = collect_times (fun n => optimum (PyInt n)) rs.
Proof.
  unfold optimum_series. rewrite for_in_series.
  destruct (collect_times _ rs); reflexivity.
Qed.

(** The figure of [plot_optimum_rebelay_length_both_ways], when there is
    one, is made of three series, each the results of its optimiser. *)
Lemma plot_optimum_three_series (interp : interpolator) (L : Q)
    (max_cavers : Z) (a d tt : Q) (mr : Z) (fig : list draw) :
  plot_optimum_rebelay_length_both_ways interp L max_cavers a d tt mr = Ok fig ->
  exists ys1 ys2 ys3,
    fig = three_series (py_range 1 (max_cavers + 1)) ys1 ys2 ys3 L /\
    optimum_series (fun n => optimum_rebelay interp L n a tt mr)
      (py_range 1 (max_cavers + 1)) = Ok ys1 /\
    optimum_series (fun n => optimum_rebelay_both_ways interp L n a d 2 100)
      (py_range 1 (max_cavers + 1)) = Ok ys2 /\
    optimum_series (fun n => optimum_rebelay interp L n d tt mr)
      (py_range 1 (max_cavers + 1)) = Ok ys3.
Proof.
  unfold plot_optimum_rebelay_length_both_ways. cbv zeta.
  destruct (optimum_series (fun n => optimum_rebelay interp L n a tt mr) _)
    as [ys1|e]; [|discriminate].
  cbv beta iota delta [bind].
  destruct (optimum_series
              (fun n => optimum_rebelay_both_ways interp L n a d 2 100) _)
    as [ys2|e]; [|discriminate].
  cbv beta iota delta [bind].
  destruct (optimum_series (fun n => optimum_rebelay interp L n d tt mr) _)
    as [ys3|e]; [|discriminate].
  cbv beta iota delta [bind].
  intros E. injection E as <-. exists ys1, ys2, ys3.
  split; [reflexivity|]. repeat split; reflexivity.
Qed.

Lemma optimum_series_Ok (optimum : value -> result Q) (max_cavers : Z)
    (ys : list Q) :
  optimum_series optimum (py_range 1 (max_cavers + 1)) = Ok ys ->
  List.length ys = Z.to_nat max_cavers /\
  forall k, (k < Z.to_nat max_cavers)%nat ->
    optimum (PyInt (Z.of_nat k + 1)) = Ok (nth k ys 0).
Proof.
  intros E. rewrite optimum_series_spec in E.
  destruct (collect_times_Ok _ _ _ E) as [Hlen Hnth].
  rewrite py_range_length in Hlen, Hnth.
  replace (Z.to_nat (max_cavers + 1 - 1)) with (Z.to_nat max_cavers)
    in Hlen, Hnth by lia.
  split; [exact Hlen|]. intros k Hk. specialize (Hnth k Hk).
  rewrite py_range_nth in Hnth by lia.
  replace (1 + Z.of_nat k)%Z with (Z.of_nat k + 1)%Z in Hnth by lia.
  exact Hnth.
Qed.

(** X12: what [plot_optimum_rebelay_length_both_ways] draws.  Its figure
    has three series over the group sizes [1 .. max_cavers]: the results of
    [optimum_rebelay] at the ascent speed, of [optimum_rebelay_both_ways],
    and of [optimum_rebelay] at the descent speed.  The first and the last
    use the [transition_time] and [max_rebelays] given; the middle one is
    computed with a transition time of 2 and 100 rebelay counts whatever was
    given. *)
Theorem plot_optimum_series (interp : interpolator) (L : Q) (max_cavers : Z)
    (a d tt : Q) (mr : Z) (fig : list draw) :
  plot_optimum_rebelay_length_both_ways interp L max_cavers a d tt mr = Ok fig ->
  exists ys1 ys2 ys3,
    fig = [Scatter (py_range 1 (max_cavers + 1)) ys1 "Ascent";
           Scatter (py_range 1 (max_cavers + 1)) ys2 "Both";
           Scatter (py_range 1 (max_cavers + 1)) ys3 "Descent";
           SetYlim 0 L] /\
    List.length ys1 = Z.to_nat max_cavers /\
    List.length ys2 = Z.to_nat max_cavers /\
    List.length ys3 = Z.to_nat max_cavers /\
    forall k, (k < Z.to_nat max_cavers)%nat ->
      nth k (py_range 1 (max_cavers + 1)) 0%Z = (Z.of_nat k + 1)%Z /\
      optimum_rebelay interp L (PyInt (Z.of_nat k + 1)) a tt mr
        = Ok (nth k ys1 0) /\
      optimum_rebelay_both_ways interp L (PyInt (Z.of_nat k + 1)) a d 2 100
        = Ok (nth k ys2 0) /\
      optimum_rebelay interp L (PyInt (Z.of_nat k + 1)) d tt mr
        = Ok (nth k ys3 0).
Proof.
  intros E.
  destruct (plot_optimum_three_series interp L max_cavers a d tt mr fig E)
    as (ys1 & ys2 & ys3 & -> & E1 & E2 & E3).
  destruct (optimum_series_Ok _ _ _ E1) as [Hl1 Hn1].
  destruct (optimum_series_Ok _ _ _ E2) as [Hl2 Hn2].
  destruct (optimum_series_Ok _ _ _ E3) as [Hl3 Hn3].
  exists ys1, ys2, ys3. split; [reflexivity|].
  split; [exact Hl1|]. split; [exact Hl2|]. split; [exact Hl3|].
  intros k Hk. split.
  - rewrite py_range_nth by lia. lia.
  - split; [apply Hn1; exact Hk|]. split; [apply Hn2 | apply Hn3]; exact Hk.
Qed.

Lemma plot_optimum_series_witness :
  exists fig ys1 ys2 ys3,
    plot_optimum_rebelay_length_both_ways interp1d_linear 100 1 7 70 3 50
      = Ok fig /\
    fig = [Scatter (py_range 1 (1 + 1)) ys1 "Ascent";
           Scatter (py_range 1 (1 + 1)) ys2 "Both";
           Scatter (py_range 1 (1 + 1)) ys3 "Descent";
           SetYlim 0 100] /\
    optimum_rebelay interp1d_linear 100 (PyInt (Z.of_nat 0 + 1)) 7 3 50
      = Ok (nth 0 ys1 0) /\
    optimum_rebelay_both_ways interp1d_linear 100 (PyInt (Z.of_nat 0 + 1))
      7 70 2 100 = Ok (nth 0 ys2 0) /\
    optimum_rebelay interp1d_linear 100 (PyInt (Z.of_nat 0 + 1)) 70 3 50
      = Ok (nth 0 ys3 0).
Proof.
  assert (Hokfig :
            is_ok (plot_optimum_rebelay_length_both_ways interp1d_linear
                     100 1 7 70 3 50) = true) by (vm_compute; reflexivity).
  destruct (plot_optimum_rebelay_length_both_ways interp1d_linear 100 1 7 70 3 50)
    as [fig|e] eqn:E; [|discriminate Hokfig].
  destruct (plot_optimum_series interp1d_linear 100 1 7 70 3 50 fig E)
    as (ys1 & ys2 & ys3 & Hfig & _ & _ & _ & Hk).
  destruct (Hk 0%nat ltac:(simpl; lia)) as (_ & H1 & H2 & H3).
  exists fig, ys1, ys2, ys3.
  split; [reflexivity|]. split; [exact Hfig|].
  split; [exact H1|]. split; [exact H2 | exact H3].
Defined.

(** X13: the middle series of [plot_optimum_rebelay_length_both_ways]
    does not follow the arguments: two calls that differ only in
    [transition_time] and [max_rebelays] draw the same "Both" series. *)
Theorem both_series_ignores_arguments (interp : interpolator) (L : Q)
    (max_cavers : Z) (a d tt tt' : Q) (mr mr' : Z) (fig fig' : list draw) :
  plot_optimum_rebelay_length_both_ways interp L max_cavers a d tt mr = Ok fig ->
  plot_optimum_rebelay_length_both_ways interp L max_cavers a d tt' mr'
    = Ok fig' ->
  exists ys, nth 1 fig (SetYlim 0 0) = Scatter (py_range 1 (max_cavers + 1)) ys "Both" /\
             nth 1 fig' (SetYlim 0 0) = Scatter (py_range 1 (max_cavers + 1)) ys "Both".
Proof.
  intros E E'.
  destruct (plot_optimum_three_series interp L max_cavers a d tt mr fig E)
    as (ys1 & ys2 & ys3 & -> & _ & E2 & _).
  destruct (plot_optimum_three_series interp L max_cavers a d tt' mr' fig' E')
    as (ys1' & ys2' & ys3' & -> & _ & E2' & _).
  rewrite E2 in E2'. injection E2' as <-.
  exists ys2. split; reflexivity.
Qed.

Lemma both_series_ignores_arguments_witness :
  exists fig fig' ys,
    plot_optimum_rebelay_length_both_ways interp1d_linear 100 1 7 70 2 100
      = Ok fig /\
    plot_optimum_rebelay_length_both_ways interp1d_linear 100 1 7 70 3 50
      = Ok fig' /\
    nth 1 fig (SetYlim 0 0) = Scatter (py_range 1 (1 + 1)) ys "Both" /\
    nth 1 fig' (SetYlim 0 0) = Scatter (py_range 1 (1 + 1)) ys "Both".
Proof.
  assert (Hokfig :
            is_ok (plot_optimum_rebelay_length_both_ways interp1d_linear
                     100 1 7 70 2 100) = true) by (vm_compute; reflexivity).
  destruct (plot_optimum_rebelay_length_both_ways interp1d_linear 100 1 7 70 2 100)
    as [fig|e] eqn:E; [|discriminate Hokfig].
  assert (Hokfig2 :
            is_ok (plot_optimum_rebelay_length_both_ways interp1d_linear
                     100 1 7 70 3 50) = true) by (vm_compute; reflexivity).
  destruct (plot_optimum_rebelay_length_both_ways interp1d_linear 100 1 7 70 3 50)
    as [fig'|e] eqn:E'; [|discriminate Hokfig2].
  destruct (both_series_ignores_arguments interp1d_linear 100 1 7 70 2 3 100 50
              fig fig' E E') as (ys & H1 & H2).
  exists fig, fig', ys.
  split; [reflexivity|]. split; [reflexivity|]. split; [exact H1 | exact H2].
Defined.

(** X14: for [max_cavers <= 0] the three loops of
    [plot_optimum_rebelay_length_both_ways] never run: no optimiser is
    called, nothing is raised whatever the other arguments are, and the
    figure has three empty series. *)
Theorem plot_optimum_no_cavers (interp : interpolator) (L : Q)
    (max_cavers : Z) (a d tt : Q) (mr : Z) :
  (max_cavers <= 0)%Z ->
  plot_optimum_rebelay_length_both_ways interp L max_cavers a d tt mr =
  Ok [Scatter [] [] "Ascent"; Scatter [] [] "Both"; Scatter [] [] "Descent";
      SetYlim 0 L].
Proof.
  intros H. unfold plot_optimum_rebelay_length_both_ways.
  rewrite py_range_empty by lia. reflexivity.
Qed.

Lemma plot_optimum_no_cavers_witness :
  plot_optimum_rebelay_length_both_ways interp1d_linear 100 0 0 0 2 (-1) =
  Ok [Scatter [] [] "Ascent"; Scatter [] [] "Both"; Scatter [] [] "Descent";
      SetYlim 0 100].
Proof.
  apply (plot_optimum_no_cavers interp1d_linear 100 0 0 0 2 (-1)). lia.
Defined.

(** The dense search only fails on an empty list of lengths, with the
    [ValueError] of [min]. *)
Lemma dense_minimum_failure (f : Q -> Q) (ls : list Q) (e : exn) :
  dense_minimum f ls = Raise e -> ls = [] /\ e = ValueError empty_min_message.
Proof.
  intros E. destruct ls as [|x rest].
  - unfold dense_minimum in E. simpl in E. injection E as <-. auto.
  - destruct (dense_minimum_first_minimum f (x :: rest) ltac:(discriminate))
      as (lo & hi & i & _ & _ & _ & Ed).
    rewrite Ed in E. discriminate.
Qed.

(** Called on a valid [n_cavers], the optimisers fail in three ways only. *)
Lemma optimum_rebelay_valid_failure (interp : interpolator) (L : Q)
    (v : value) (s t : Q) (m : Z) (e : exn) :
  integer_at_least_1 v -> optimum_rebelay interp L v s t m = Raise e ->
  e = ZeroDivisionError \/ e = ValueError empty_min_message \/
  exists xs ys, interp xs ys = Raise e.
Proof.
  intros Hv E. unfold optimum_rebelay in E.
  destruct (rebelay_sweep L v s t m) as [[ts ls]|e'] eqn:Es.
  - cbv beta iota delta [bind] in E.
    destruct (interp ls ts) as [f|e'] eqn:Ei.
    + right. left. apply (dense_minimum_failure f ls e E).
    + injection E as <-. right. right. eauto.
  - simpl in E. injection E as <-. left.
    rewrite rebelay_sweep_spec in Es.
    destruct (collect_times _ (range0 m)) as [ts'|e''] eqn:Ec; [discriminate|].
    simpl in Es. injection Es as ->.
    destruct (collect_times_Raise _ _ _ Ec) as (k & _ & Ek).
    apply (ascent_time_valid_exception L v k s t e' Hv Ek).
Qed.

Lemma optimum_rebelay_both_ways_valid_failure (interp : interpolator) (L : Q)
    (v : value) (a d t : Q) (m : Z) (e : exn) :
  integer_at_least_1 v -> optimum_rebelay_both_ways interp L v a d t m = Raise e ->
  e = ZeroDivisionError \/ e = ValueError empty_min_message \/
  exists xs ys, interp xs ys = Raise e.
Proof.
  intros Hv E. unfold optimum_rebelay_both_ways in E.
  destruct (both_ways_sweep L v a d t m) as [[ts ls]|e'] eqn:Es.
  - cbv beta iota delta [bind] in E.
    destruct (interp ls ts) as [f|e'] eqn:Ei.
    + right. left. apply (dense_minimum_failure f ls e E).
    + injection E as <-. right. right. eauto.
  - simpl in E. injection E as <-. left.
    rewrite both_ways_sweep_spec in Es.
    destruct (collect_times _ (range0 m)) as [ts'|e''] eqn:Ec; [discriminate|].
    simpl in Es. injection Es as ->.
    destruct (collect_times_Raise _ _ _ Ec) as (k & _ & Ek).
    destruct (ascent_time L v k a t) as [up|e1] eqn:Ea.
    + simpl in Ek. destruct (ascent_time L v k d t) as [down|e2] eqn:Ed;
        [discriminate|].
      simpl in Ek. injection Ek as <-.
      apply (ascent_time_valid_exception L v k d t e2 Hv Ed).
    + simpl in Ek. injection Ek as <-.
      apply (ascent_time_valid_exception L v k a t e1 Hv Ea).
Qed.

Lemma optimum_series_failure (optimum : value -> result Q) (max_cavers : Z)
    (e : exn) :
  optimum_series optimum (py_range 1 (max_cavers + 1)) = Raise e ->
  exists n, (1 <= n)%Z /\ optimum (PyInt n) = Raise e.
Proof.
  intros E. rewrite optimum_series_spec in E.
  destruct (collect_times_Raise _ _ _ E) as (n & Hn & En).
  apply py_range_In in Hn. exists n. split; [lia | exact En].
Qed.

(** X15: how [plot_optimum_rebelay_length_both_ways] can fail.  The group
    sizes it passes on are the integers from 1 up, so the [ValueError] of
    [ascent_time] about [n_cavers] never comes out of it: an exception is the
    division by a zero speed, the [ValueError] of [min] on an empty sweep, or
    one raised by the interpolation. *)
Theorem plot_optimum_failures (interp : interpolator) (L : Q)
    (max_cavers : Z) (a d tt : Q) (mr : Z) (e : exn) :
  plot_optimum_rebelay_length_both_ways interp L max_cavers a d tt mr = Raise e ->
  e = ZeroDivisionError \/ e = ValueError empty_min_message \/
  exists xs ys, interp xs ys = Raise e.
Proof.
  unfold plot_optimum_rebelay_length_both_ways. cbv zeta.
  assert (Hvalid : forall n, (1 <= n)%Z -> integer_at_least_1 (PyInt n))
    by (intros n Hn; exists n; split; [reflexivity | exact Hn]).
  destruct (optimum_series (fun n => optimum_rebelay interp L n a tt mr) _)
    as [ys1|e1] eqn:E1.
  - cbv beta iota delta [bind].
    destruct (optimum_series
                (fun n => optimum_rebelay_both_ways interp L n a d 2 100) _)
      as [ys2|e2] eqn:E2.
    + cbv beta iota delta [bind].
      destruct (optimum_series (fun n => optimum_rebelay interp L n d tt mr) _)
        as [ys3|e3] eqn:E3; [discriminate|].
      cbv beta iota delta [bind]. intros E. injection E as <-.
      destruct (optimum_series_failure _ _ _ E3) as (n & Hn & En).
      apply (optimum_rebelay_valid_failure interp L (PyInt n) d tt mr e3
               (Hvalid n Hn) En).
    + cbv beta iota delta [bind]. intros E. injection E as <-.
      destruct (optimum_series_failure _ _ _ E2) as (n & Hn & En).
      apply (optimum_rebelay_both_ways_valid_failure interp L (PyInt n) a d 2
               100 e2 (Hvalid n Hn) En).
  - cbv beta iota delta [bind]. intros E. injection E as <-.
    destruct (optimum_series_failure _ _ _ E1) as (n & Hn & En).
    apply (optimum_rebelay_valid_failure interp L (PyInt n) a tt mr e1
             (Hvalid n Hn) En).
Qed.

Lemma plot_optimum_failures_witness :
  plot_optimum_rebelay_length_both_ways interp1d_linear 100 3 0 70 2 100
    = Raise ZeroDivisionError /\
  (ZeroDivisionError = ZeroDivisionError \/
   ZeroDivisionError = ValueError empty_min_message \/
   exists xs ys, interp1d_linear xs ys = Raise ZeroDivisionError).
Proof.
  assert (E : plot_optimum_rebelay_length_both_ways interp1d_linear 100 3 0 70
                2 100 = Raise ZeroDivisionError) by reflexivity.
  split; [exact E|].
  apply (plot_optimum_failures interp1d_linear 100 3 0 70 2 100 _ E).
Defined.

Lemma np_min_lower (xs : list Q) (lo : Q) :
  np_min xs = Ok lo -> Forall (fun y => lo <= y) xs.
Proof.
  destruct xs as [|x rest]; [discriminate|]. simpl. intros E. injection E as <-.
  destruct (fold_min_lower rest x) as [H1 H2]. constructor; assumption.
Qed.

(** X16: [plot_ascent_times] and [optimum_rebelay] agree.  The plot
    raises exactly when [optimum_rebelay] does on the same arguments, and the
    same exception.  Otherwise it draws the samples of the sweep, puts the
    marker at the value [optimum_rebelay] returns, the abscissae from 0 to
    the rope length, and the ordinates from nine tenths of the least sampled
    time up to the time without rebelays. *)
Theorem plot_ascent_times_follows_optimum (interp : interpolator) (L : Q)
    (v : value) (s t : Q) (m : Z) :
  match optimum_rebelay interp L v s t m with
  | Raise e => plot_ascent_times interp L v s t m = Raise e
  | Ok x =>
      exists ts ls lowest no_rebelay,
        rebelay_sweep L v s t m = Ok (ts, ls) /\
        np_min ts = Ok lowest /\ Forall (fun y => lowest <= y) ts /\
        ascent_time L v 0 s t = Ok no_rebelay /\
        plot_ascent_times interp L v s t m =
          Ok [Plot ls ts; SetYlim ((9 # 10) * lowest) no_rebelay;
              SetXlim 0 L; Axvline x]
  end.
Proof.
  unfold optimum_rebelay, plot_ascent_times.
  change (for_in (range0 m) (sweep_body L v s t) ([], []))
    with (rebelay_sweep L v s t m).
  destruct (rebelay_sweep L v s t m) as [[ts ls]|e] eqn:Es; [|reflexivity].
  cbv beta iota delta [bind].
  destruct (interp ls ts) as [f|e]; [|reflexivity].
  destruct (dense_minimum f ls) as [x|e] eqn:Ed; [|reflexivity].
  destruct (rebelay_sweep_lengths L v s t m ts ls Es) as (Els & Hts & Hls).
  assert (Hm : (1 <= m)%Z).
  { destruct ls as [|l0 ls']; [|simpl in Hls; lia].
    unfold dense_minimum in Ed. simpl in Ed. discriminate. }
  rewrite rebelay_sweep_spec in Es.
  destruct (collect_times _ (range0 m)) as [ts'|e] eqn:Ec; [|discriminate].
  simpl in Es. injection Es as -> _.
  destruct (collect_times_Ok _ _ _ Ec) as [_ Hnth].
  rewrite range0_length in Hnth.
  specialize (Hnth 0%nat ltac:(lia)). rewrite range0_nth in Hnth by lia.
  destruct ts as [|t0 rest]; [simpl in Hts; lia|].
  simpl in Hnth.
  destruct (np_min (t0 :: rest)) as [lowest|e] eqn:En; [|discriminate].
  exists (t0 :: rest), ls, lowest, t0.
  split; [reflexivity|]. split; [exact En|].
  split; [apply np_min_lower; exact En|]. split; [exact Hnth|].
  reflexivity.
Qed.
